(** * Shipment tracking model (src/models/Shipping.js)

    A shallow embedding of the Mongoose model [Shipping]: its schema
    (enumerations, [required], [trim], [maxlength] and [min] options), the
    [pre('save')] middleware, the instance methods and the static
    [getShippingStats], followed by the properties proved about them.

    Conventions.
    - A JavaScript [Date] is its time value: milliseconds since the epoch,
      in [Z].  The local-time accessors [getDay] and [setDate] are taken in
      a zone at a fixed offset [tz] from UTC (no daylight-saving shift).
    - Strings are Rocq strings; [toLowerCase], [trim] and the regular
      expression class [\s] are given on ASCII characters, other bytes
      are left as they are.
    - A field that may be [undefined] or [null] is an [option].
    - Every [new Date()] reads the next value of a clock, so two reads in
      one call may differ.
    - Only the paths that the methods read or write are kept in the record
      [Shipping]; the addresses, the package descriptor, the label and the
      other paths are never touched by the code below.
    - [save()] stands for validation, the [pre('save')] middleware and
      the hand-over of the document to the database; the write itself and
      the unique indexes belong to the database.  The paths left out of
      the record are taken to be valid. *)

From Stdlib Require Import ZArith QArith Ascii String List Sorted Permutation Lia.
From stdpp Require Import base gmap strings list.

Open Scope string_scope.

(** ** JavaScript primitives used by the model *)

Module JS.

Definition isWhitespace (c : ascii) : bool :=
  let n := N_of_ascii c in
  ((9 <=? n) && (n <=? 13) || (n =? 32))%N.

Definition lowerChar (c : ascii) : ascii :=
  let n := N_of_ascii c in
  if ((65 <=? n) && (n <=? 90))%N then ascii_of_N (n + 32) else c.

(** [String.prototype.toLowerCase] *)
Fixpoint toLowerCase (s : string) : string :=
  match s with
  | EmptyString => EmptyString
  | String c r => String (lowerChar c) (toLowerCase r)
  end.

(** [s.replace(/\s+/g, '_')]: every maximal run of whitespace becomes one
    underscore.  [inRun] tells that the previous character was whitespace. *)
Fixpoint replaceRuns (inRun : bool) (s : string) : string :=
  match s with
  | EmptyString => EmptyString
  | String c r =>
      if isWhitespace c
      then if inRun then replaceRuns true r else String "_" (replaceRuns true r)
      else String c (replaceRuns false r)
  end.

Definition replaceWhitespace (s : string) : string := replaceRuns false s.

Fixpoint trimStart (s : string) : string :=
  match s with
  | EmptyString => EmptyString
  | String c r => if isWhitespace c then trimStart r else s
  end.

Fixpoint trimEnd (s : string) : string :=
  match s with
  | EmptyString => EmptyString
  | String c r =>
      match trimEnd r with
      | EmptyString => if isWhitespace c then EmptyString else String c EmptyString
      | r' => String c r'
      end
  end.

(** [String.prototype.trim] *)
Definition trim (s : string) : string := trimEnd (trimStart s).

(** The values an object-literal lookup [obj[key]] can produce here: a
    string of the literal, [undefined], or a member inherited from
    [Object.prototype]. *)
Inductive Value :=
| Undefined
| Str (s : string)
| NativeFunction (name : string)
| ObjectPrototype.

Definition truthy (v : Value) : bool :=
  match v with
  | Undefined => false
  | Str s => negb (String.eqb s "")
  | NativeFunction _ => true
  | ObjectPrototype => true
  end.

(** [a || b] *)
Definition or (a b : Value) : Value := if truthy a then a else b.

(** The members that every object literal inherits. *)
Definition objectPrototype : gmap string Value :=
  list_to_map
    [ ("constructor", NativeFunction "Object");
      ("toString", NativeFunction "toString");
      ("toLocaleString", NativeFunction "toLocaleString");
      ("valueOf", NativeFunction "valueOf");
      ("hasOwnProperty", NativeFunction "hasOwnProperty");
      ("isPrototypeOf", NativeFunction "isPrototypeOf");
      ("propertyIsEnumerable", NativeFunction "propertyIsEnumerable");
      ("__defineGetter__", NativeFunction "__defineGetter__");
      ("__defineSetter__", NativeFunction "__defineSetter__");
      ("__lookupGetter__", NativeFunction "__lookupGetter__");
      ("__lookupSetter__", NativeFunction "__lookupSetter__");
      ("__proto__", ObjectPrototype) ].

(** [obj[key]] for an object literal whose own properties are [own]:
    own properties first, then the prototype. *)
Definition get (own : gmap string string) (key : string) : Value :=
  match own !! key with
  | Some s => Str s
  | None =>
      match objectPrototype !! key with
      | Some v => v
      | None => Undefined
      end
  end.

(** [Array.prototype.sort(compareFn)]: the sort is stable, so its result
    is the one of a stable insertion: [x] is placed before the first
    element that [compareFn] does not order before it. *)
Section Sort.
Context {A : Type} (compareFn : A -> A -> Z).

Fixpoint insert (x : A) (l : list A) : list A :=
  match l with
  | [] => [x]
  | y :: l' => if (compareFn x y <=? 0)%Z then x :: y :: l' else y :: insert x l'
  end.

Definition sort (l : list A) : list A := foldr insert [] l.
End Sort.

(** [n || dflt] on a number that may be absent: [undefined] and [0] are
    falsy. *)
Definition numberOr (n : option Z) (dflt : Z) : Z :=
  match n with
  | Some x => if (x =? 0)%Z then dflt else x
  | None => dflt
  end.

(** [Function.prototype.toString] of a built-in function *)
Definition nativeSource (name : string) : string :=
  "function " ++ name ++ "() { [native code] }".

End JS.

(** ** Mongoose schema types and validators *)

Module Mongoose.

(** Outcome of casting an assigned value to a [String] path. *)
Inductive Cast :=
| CastOk (v : option string)
| CastError.

(** The [String] cast: strings are kept, [undefined] stays [undefined], a
    value whose [toString] is not [Object.prototype.toString] is
    replaced by its [toString()], anything else is a cast error (the
    assignment is dropped and the path keeps its value). *)
Definition castString (v : JS.Value) : Cast :=
  match v with
  | JS.Undefined => CastOk None
  | JS.Str s => CastOk (Some s)
  | JS.NativeFunction name => CastOk (Some (JS.nativeSource name))
  | JS.ObjectPrototype => CastError
  end.

(** [enum: values]; not run on an absent value *)
Definition enumValidator (values : list string) (v : option string) : bool :=
  match v with
  | None => true
  | Some s => bool_decide (s ∈ values)
  end.

(** [required: true] on a [String] path: present and not empty *)
Definition requiredValidator (v : option string) : bool :=
  match v with
  | None => false
  | Some s => negb (String.eqb s "")
  end.

(** [maxlength: n] *)
Definition maxlengthValidator (n : nat) (v : option string) : bool :=
  match v with
  | None => true
  | Some s => (String.length s <=? n)%nat
  end.

(** [min: n] on a [Number] path *)
Definition minValidator (n : Z) (v : option Z) : bool :=
  match v with
  | None => true
  | Some x => (n <=? x)%Z
  end.

(** A validation failure names the paths that failed (array indices are
    left out of the path names). *)
Inductive Error :=
| ValidationError (paths : list string).

Definition check (valid : bool) (path : string) : list string :=
  if valid then [] else [path].

End Mongoose.

(** ** The data model *)

Definition Date := Z.
Definition ObjectId := string.

Record Location := {
  city : option string;
  state : option string;
  country : option string;
  facility : option string
}.

(** [{}] *)
Definition emptyLocation : Location :=
  {| city := None; state := None; country := None; facility := None |}.

Record TrackingEvent := {
  status : string;
  description : string;
  location : Location;
  timestamp : Date;
  source : string
}.

Record DeliveryTimeframe := {
  min : option Z;
  max : option Z
}.

Record Delivery := {
  receivedBy : option string;
  deliveryLocation : option string;
  signature : option string;
  deliveryPhoto : option string;
  deliveryNotes : option string
}.

Record Return := {
  isReturned : bool;
  reason : option string;
  returnedAt : option Date;
  returnTrackingNumber : option string
}.

(** The document ([shippingSchema], lines 42-115).  The last two fields are
    Mongoose's own state: whether the document was never saved, and
    [isModified('shippingStatus')].  The path [return] of the schema is
    the field [return_].  [deliveryTimeframe] is [None] when nothing is
    stored under the nested path [deliveryTimeframe] (lines 81-84). *)
Record Shipping := {
  sellerID : ObjectId;
  carrier : string;
  trackingNumber : string;
  trackingUrl : option string;
  shippingStatus : option string;
  saturdayDelivery : bool;
  shippedAt : option Date;
  estimatedDeliveryDate : option Date;
  actualDeliveryDate : option Date;
  deliveryTimeframe : option DeliveryTimeframe;
  trackingEvents : list TrackingEvent;
  lastTrackingUpdate : option Date;
  delivery : Delivery;
  return_ : Return;
  isNew : bool;
  statusModified : bool
}.

(** *** Enumerations of the schema (lines 23-27, 38, 46, 52 and 98) *)

Definition trackingEventStatusEnum : list string :=
  [ "label_created"; "picked_up"; "in_transit"; "out_for_delivery";
    "delivered"; "delivery_attempted"; "exception"; "returned";
    "lost"; "damaged" ].

Definition sourceEnum : list string := [ "carrier"; "api"; "manual"; "webhook" ].

Definition carrierEnum : list string :=
  [ "La Poste"; "Chronopost"; "DHL"; "UPS"; "FedEx"; "TNT"; "Mondial Relay"; "Autre" ].

Definition shippingStatusEnum : list string :=
  [ "Pending"; "Processing"; "Ready to Ship"; "Shipped"; "In Transit";
    "Out for Delivery"; "Delivered"; "Delivery Failed"; "Returned"; "Lost";
    "Damaged"; "Cancelled" ].

Definition returnReasonEnum : list string :=
  [ "delivery_failed"; "refused_by_recipient"; "incorrect_address";
    "damaged_package"; "customer_request"; "other" ].

(** *** Field updates *)

Definition set_trackingUrl (v : option string) (d : Shipping) : Shipping :=
  {| sellerID := sellerID d; carrier := carrier d; trackingNumber := trackingNumber d;
     trackingUrl := v; shippingStatus := shippingStatus d;
     saturdayDelivery := saturdayDelivery d; shippedAt := shippedAt d;
     estimatedDeliveryDate := estimatedDeliveryDate d;
     actualDeliveryDate := actualDeliveryDate d;
     deliveryTimeframe := deliveryTimeframe d; trackingEvents := trackingEvents d;
     lastTrackingUpdate := lastTrackingUpdate d; delivery := delivery d;
     return_ := return_ d; isNew := isNew d; statusModified := statusModified d |}.

Definition set_shippingStatus (v : option string) (modified : bool) (d : Shipping) : Shipping :=
  {| sellerID := sellerID d; carrier := carrier d; trackingNumber := trackingNumber d;
     trackingUrl := trackingUrl d; shippingStatus := v;
     saturdayDelivery := saturdayDelivery d; shippedAt := shippedAt d;
     estimatedDeliveryDate := estimatedDeliveryDate d;
     actualDeliveryDate := actualDeliveryDate d;
     deliveryTimeframe := deliveryTimeframe d; trackingEvents := trackingEvents d;
     lastTrackingUpdate := lastTrackingUpdate d; delivery := delivery d;
     return_ := return_ d; isNew := isNew d; statusModified := modified |}.

Definition set_shippedAt (v : option Date) (d : Shipping) : Shipping :=
  {| sellerID := sellerID d; carrier := carrier d; trackingNumber := trackingNumber d;
     trackingUrl := trackingUrl d; shippingStatus := shippingStatus d;
     saturdayDelivery := saturdayDelivery d; shippedAt := v;
     estimatedDeliveryDate := estimatedDeliveryDate d;
     actualDeliveryDate := actualDeliveryDate d;
     deliveryTimeframe := deliveryTimeframe d; trackingEvents := trackingEvents d;
     lastTrackingUpdate := lastTrackingUpdate d; delivery := delivery d;
     return_ := return_ d; isNew := isNew d; statusModified := statusModified d |}.

Definition set_estimatedDeliveryDate (v : option Date) (d : Shipping) : Shipping :=
  {| sellerID := sellerID d; carrier := carrier d; trackingNumber := trackingNumber d;
     trackingUrl := trackingUrl d; shippingStatus := shippingStatus d;
     saturdayDelivery := saturdayDelivery d; shippedAt := shippedAt d;
     estimatedDeliveryDate := v;
     actualDeliveryDate := actualDeliveryDate d;
     deliveryTimeframe := deliveryTimeframe d; trackingEvents := trackingEvents d;
     lastTrackingUpdate := lastTrackingUpdate d; delivery := delivery d;
     return_ := return_ d; isNew := isNew d; statusModified := statusModified d |}.

Definition set_actualDeliveryDate (v : option Date) (d : Shipping) : Shipping :=
  {| sellerID := sellerID d; carrier := carrier d; trackingNumber := trackingNumber d;
     trackingUrl := trackingUrl d; shippingStatus := shippingStatus d;
     saturdayDelivery := saturdayDelivery d; shippedAt := shippedAt d;
     estimatedDeliveryDate := estimatedDeliveryDate d;
     actualDeliveryDate := v;
     deliveryTimeframe := deliveryTimeframe d; trackingEvents := trackingEvents d;
     lastTrackingUpdate := lastTrackingUpdate d; delivery := delivery d;
     return_ := return_ d; isNew := isNew d; statusModified := statusModified d |}.

Definition set_trackingEvents (v : list TrackingEvent) (d : Shipping) : Shipping :=
  {| sellerID := sellerID d; carrier := carrier d; trackingNumber := trackingNumber d;
     trackingUrl := trackingUrl d; shippingStatus := shippingStatus d;
     saturdayDelivery := saturdayDelivery d; shippedAt := shippedAt d;
     estimatedDeliveryDate := estimatedDeliveryDate d;
     actualDeliveryDate := actualDeliveryDate d;
     deliveryTimeframe := deliveryTimeframe d; trackingEvents := v;
     lastTrackingUpdate := lastTrackingUpdate d; delivery := delivery d;
     return_ := return_ d; isNew := isNew d; statusModified := statusModified d |}.

Definition set_lastTrackingUpdate (v : option Date) (d : Shipping) : Shipping :=
  {| sellerID := sellerID d; carrier := carrier d; trackingNumber := trackingNumber d;
     trackingUrl := trackingUrl d; shippingStatus := shippingStatus d;
     saturdayDelivery := saturdayDelivery d; shippedAt := shippedAt d;
     estimatedDeliveryDate := estimatedDeliveryDate d;
     actualDeliveryDate := actualDeliveryDate d;
     deliveryTimeframe := deliveryTimeframe d; trackingEvents := trackingEvents d;
     lastTrackingUpdate := v; delivery := delivery d;
     return_ := return_ d; isNew := isNew d; statusModified := statusModified d |}.

Definition set_delivery (v : Delivery) (d : Shipping) : Shipping :=
  {| sellerID := sellerID d; carrier := carrier d; trackingNumber := trackingNumber d;
     trackingUrl := trackingUrl d; shippingStatus := shippingStatus d;
     saturdayDelivery := saturdayDelivery d; shippedAt := shippedAt d;
     estimatedDeliveryDate := estimatedDeliveryDate d;
     actualDeliveryDate := actualDeliveryDate d;
     deliveryTimeframe := deliveryTimeframe d; trackingEvents := trackingEvents d;
     lastTrackingUpdate := lastTrackingUpdate d; delivery := v;
     return_ := return_ d; isNew := isNew d; statusModified := statusModified d |}.

Definition set_return (v : Return) (d : Shipping) : Shipping :=
  {| sellerID := sellerID d; carrier := carrier d; trackingNumber := trackingNumber d;
     trackingUrl := trackingUrl d; shippingStatus := shippingStatus d;
     saturdayDelivery := saturdayDelivery d; shippedAt := shippedAt d;
     estimatedDeliveryDate := estimatedDeliveryDate d;
     actualDeliveryDate := actualDeliveryDate d;
     deliveryTimeframe := deliveryTimeframe d; trackingEvents := trackingEvents d;
     lastTrackingUpdate := lastTrackingUpdate d; delivery := delivery d;
     return_ := v; isNew := isNew d; statusModified := statusModified d |}.

(** What a successful save leaves of Mongoose's own state. *)
Definition markSaved (d : Shipping) : Shipping :=
  {| sellerID := sellerID d; carrier := carrier d; trackingNumber := trackingNumber d;
     trackingUrl := trackingUrl d; shippingStatus := shippingStatus d;
     saturdayDelivery := saturdayDelivery d; shippedAt := shippedAt d;
     estimatedDeliveryDate := estimatedDeliveryDate d;
     actualDeliveryDate := actualDeliveryDate d;
     deliveryTimeframe := deliveryTimeframe d; trackingEvents := trackingEvents d;
     lastTrackingUpdate := lastTrackingUpdate d; delivery := delivery d;
     return_ := return_ d; isNew := false; statusModified := false |}.

(** *** Validation run by [save()]

    Every validator that the schema declares on a kept path. *)

Definition validateTrackingEvent (e : TrackingEvent) : list string :=
  Mongoose.check (Mongoose.requiredValidator (Some (status e))
                  && Mongoose.enumValidator trackingEventStatusEnum (Some (status e)))
                 "trackingEvents.status"
  ++ Mongoose.check (Mongoose.requiredValidator (Some (description e)))
                    "trackingEvents.description"
  ++ Mongoose.check (Mongoose.enumValidator sourceEnum (Some (source e)))
                    "trackingEvents.source".

Definition validateTimeframe (t : option DeliveryTimeframe) : list string :=
  match t with
  | None => []
  | Some t =>
      Mongoose.check (Mongoose.minValidator 0 (min t)) "deliveryTimeframe.min"
      ++ Mongoose.check (Mongoose.minValidator 0 (max t)) "deliveryTimeframe.max"
  end.

(** The paths that fail validation; the document is valid when there is none. *)
Definition validate (d : Shipping) : list string :=
  Mongoose.check (Mongoose.requiredValidator (Some (carrier d))
                  && Mongoose.enumValidator carrierEnum (Some (carrier d)))
                 "carrier"
  ++ Mongoose.check (Mongoose.requiredValidator (Some (trackingNumber d))) "trackingNumber"
  ++ Mongoose.check (Mongoose.enumValidator shippingStatusEnum (shippingStatus d))
                    "shippingStatus"
  ++ validateTimeframe (deliveryTimeframe d)
  ++ flat_map validateTrackingEvent (trackingEvents d)
  ++ Mongoose.check (Mongoose.maxlengthValidator 500 (deliveryNotes (delivery d)))
                    "delivery.deliveryNotes"
  ++ Mongoose.check (Mongoose.enumValidator returnReasonEnum (reason (return_ d)))
                    "return.reason".

(** *** Assignments to schema paths *)

(** [this.shippingStatus = v].  A new document marks every assigned path as
    modified; a stored one marks the path when the value differs from the
    current one, and a path once marked stays marked until the next save. *)
Definition assignShippingStatus (v : JS.Value) (d : Shipping) : Shipping :=
  match Mongoose.castString v with
  | Mongoose.CastOk s =>
      set_shippingStatus s
        (isNew d || statusModified d || negb (bool_decide (s = shippingStatus d))) d
  | Mongoose.CastError => d
  end.

(** [this.trackingUrl = v]; the path has [trim: true]. *)
Definition assignTrackingUrl (v : JS.Value) (d : Shipping) : Shipping :=
  match Mongoose.castString v with
  | Mongoose.CastOk s => set_trackingUrl (JS.trim <$> s) d
  | Mongoose.CastError => d
  end.

(** [this.delivery = {...}]; [receivedBy] and [deliveryLocation] have
    [trim: true]. *)
Definition assignDelivery (receivedBy deliveryLocation signature photo notes : string)
    (d : Shipping) : Shipping :=
  set_delivery
    {| receivedBy := Some (JS.trim receivedBy);
       deliveryLocation := Some (JS.trim deliveryLocation);
       signature := Some signature;
       deliveryPhoto := Some photo;
       deliveryNotes := Some notes |} d.

(** [this.trackingEvents.push(event)]: the pushed object is cast to a
    sub-document; [description] has [trim: true]. *)
Definition pushTrackingEvent (e : TrackingEvent) (d : Shipping) : Shipping :=
  set_trackingEvents
    (trackingEvents d ++
       [ {| status := status e; description := JS.trim (description e);
            location := location e; timestamp := timestamp e; source := source e |} ]) d.

(** ** Methods as state transformers

    A method runs on [this] and on the clock: [clock w n] is the value of
    the [n]-th [new Date()] and [ticks w] counts the reads so far. *)

Record World := {
  this : Shipping;
  clock : nat -> Date;
  ticks : nat
}.

Definition M (A : Type) : Type := World -> A * World.

#[global] Instance M_ret : MRet M := fun A a w => (a, w).
#[global] Instance M_bind : MBind M :=
  fun A B f m w => let (a, w') := m w in f a w'.

(** [new Date()] *)
Definition newDate : M Date :=
  fun w => (clock w (ticks w),
            {| this := this w; clock := clock w; ticks := S (ticks w) |}).

Definition read {A : Type} (f : Shipping -> A) : M A :=
  fun w => (f (this w), w).

Definition write (f : Shipping -> Shipping) : M unit :=
  fun w => (tt, {| this := f (this w); clock := clock w; ticks := ticks w |}).

(** The time the clock shows when a call starts. *)
Definition now (w : World) : Date := clock w (ticks w).

(** *** [shippingSchema.pre('save', ...)] (lines 128-136) *)

Definition preSave : M unit :=
  d ← read id;
  (if statusModified d
      && bool_decide (shippingStatus d = Some "Shipped")
      && negb (bool_decide (is_Some (shippedAt d)))
   then t ← newDate; write (set_shippedAt (Some t))
   else mret tt);;
  d ← read id;
  (if statusModified d
      && bool_decide (shippingStatus d = Some "Delivered")
      && negb (bool_decide (is_Some (actualDeliveryDate d)))
   then t ← newDate; write (set_actualDeliveryDate (Some t))
   else mret tt).

(** *** [document.save()]

    Validation runs first; the [pre('save')] middleware runs on a valid
    document only, and the document is then written. *)

Inductive SaveResult :=
| Saved (d : Shipping)
| Rejected (e : Mongoose.Error).

Definition save : M SaveResult :=
  d ← read id;
  match validate d with
  | [] => preSave;; write markSaved;; d' ← read id; mret (Saved d')
  | paths => mret (Rejected (Mongoose.ValidationError paths))
  end.

(** *** [addTrackingEvent] (lines 162-188) *)

Definition statusMapping : gmap string string :=
  list_to_map
    [ ("delivered", "Delivered");
      ("out_for_delivery", "Out for Delivery");
      ("in_transit", "In Transit");
      ("picked_up", "Shipped");
      ("exception", "Delivery Failed");
      ("returned", "Returned");
      ("lost", "Lost");
      ("damaged", "Damaged") ].

Definition addTrackingEvent (status description : string) (location : Location)
    (timestamp : option Date) : M Shipping :=
  ts ← match timestamp with Some t => mret t | None => newDate end;
  let event := {| status := status; description := description; location := location;
                  timestamp := ts; source := "manual" |} in
  write (pushTrackingEvent event);;
  t ← newDate;
  write (set_lastTrackingUpdate (Some t));;
  (if JS.truthy (JS.get statusMapping status)
   then write (assignShippingStatus (JS.get statusMapping status))
   else mret tt);;
  read id.

(** *** [updateStatus] (lines 156-160) *)

Definition updateStatus (newStatus description : string) (location : Location)
  : M SaveResult :=
  write (assignShippingStatus (JS.Str newStatus));;
  addTrackingEvent (JS.replaceWhitespace (JS.toLowerCase newStatus)) description location None;;
  save.

(** *** [generateTrackingUrl] (lines 190-201) *)

Definition trackingUrls (trackingNumber : string) : gmap string string :=
  list_to_map
    [ ("La Poste", "https://www.laposte.fr/outils/suivre-vos-envois?code=" ++ trackingNumber);
      ("Chronopost", "https://www.chronopost.fr/tracking-colis?listeNumerosLT=" ++ trackingNumber);
      ("DHL", "https://www.dhl.com/fr-fr/home/tracking/tracking-express.html?submit=1&tracking-id=" ++ trackingNumber);
      ("UPS", "https://www.ups.com/track?loc=fr_FR&tracknum=" ++ trackingNumber);
      ("FedEx", "https://www.fedex.com/apps/fedextrack/?tracknumbers=" ++ trackingNumber);
      ("TNT", "https://www.tnt.com/express/fr_fr/site/shipping-tools/tracking.html?searchType=con&cons=" ++ trackingNumber) ].

Definition generateTrackingUrl : M (option string) :=
  d ← read id;
  write (assignTrackingUrl
           (JS.or (JS.get (trackingUrls (trackingNumber d)) (carrier d)) (JS.Str "")));;
  read trackingUrl.

(** *** [calculateEstimatedDelivery] (lines 203-222) *)

Definition msPerDay : Z := 86400000.

(** [d.getDay()] in the zone at offset [tz] milliseconds from UTC; the
    epoch was a Thursday. *)
Definition getDay (tz : Z) (t : Date) : Z := (((t + tz) / msPerDay + 4) mod 7)%Z.

(** [d.setDate(d.getDate() + 1)] *)
Definition nextDay (t : Date) : Date := (t + msPerDay)%Z.

(** The [while] loop needs fuel in the model. *)
Inductive Outcome (A : Type) :=
| Returns (a : A)
| OutOfFuel.
Arguments Returns {A} a.
Arguments OutOfFuel {A}.

Fixpoint estimateLoop (fuel : nat) (tz : Z) (saturdayDelivery : bool) (maxDays : Z)
    (deliveryDate : Date) (daysAdded : Z) : Outcome Date :=
  if (daysAdded <? maxDays)%Z then
    match fuel with
    | O => OutOfFuel
    | S fuel' =>
        let deliveryDate := nextDay deliveryDate in
        let dayOfWeek := getDay tz deliveryDate in
        if negb (dayOfWeek =? 0)%Z && (negb (dayOfWeek =? 6)%Z || saturdayDelivery)
        then estimateLoop fuel' tz saturdayDelivery maxDays deliveryDate (daysAdded + 1)
        else estimateLoop fuel' tz saturdayDelivery maxDays deliveryDate daysAdded
    end
  else Returns deliveryDate.

(** [this.deliveryTimeframe]: the path is a nested one (lines 81-84), not a
    sub-document, and the getter of a nested path returns an object whether
    or not anything is stored under it; with nothing stored, [min] and
    [max] are [undefined]. *)
Definition getDeliveryTimeframe (d : Shipping) : DeliveryTimeframe :=
  match deliveryTimeframe d with
  | Some timeframe => timeframe
  | None => {| min := None; max := None |}
  end.

(** An object is truthy: the test [!this.deliveryTimeframe] of line 204
    never succeeds, and [shippedAt] alone decides the early [return null]. *)
Definition calculateEstimatedDelivery (fuel : nat) (tz : Z) : M (Outcome (option Date)) :=
  d ← read id;
  match shippedAt d with
  | Some shippedDate =>
      let timeframe := getDeliveryTimeframe d in
      let maxDays := JS.numberOr (max timeframe) 7 in
      match estimateLoop fuel tz (saturdayDelivery d) maxDays shippedDate 0 with
      | Returns deliveryDate =>
          write (set_estimatedDeliveryDate (Some deliveryDate));;
          mret (Returns (Some deliveryDate))
      | OutOfFuel => mret OutOfFuel
      end
  | None => mret (Returns None)
  end.

(** *** [getLatestTrackingEvent] (lines 229-232) *)

Definition byTimestampDesc (a b : TrackingEvent) : Z := (timestamp b - timestamp a)%Z.

Definition getLatestTrackingEvent : M (option TrackingEvent) :=
  d ← read id;
  if (length (trackingEvents d) =? 0)%nat then mret None
  else
    write (set_trackingEvents (JS.sort byTimestampDesc (trackingEvents d)));;
    read (fun d => head (trackingEvents d)).

(** *** [markAsDelivered] (lines 234-240) *)

Definition markAsDelivered (receivedBy deliveryLocation signature photo notes : string)
  : M SaveResult :=
  write (assignShippingStatus (JS.Str "Delivered"));;
  t ← newDate;
  write (set_actualDeliveryDate (Some t));;
  write (assignDelivery receivedBy deliveryLocation signature photo notes);;
  ts ← newDate;
  addTrackingEvent "delivered"
    ("Colis livré" ++ (if JS.truthy (JS.Str receivedBy) then " à " ++ receivedBy else ""))
    emptyLocation (Some ts);;
  save.

(** *** [processReturn] (lines 242-252) *)

Definition processReturn (reason returnTrackingNumber : string) : M SaveResult :=
  t ← newDate;
  write (set_return {| isReturned := true; reason := Some reason;
                       returnedAt := Some t;
                       returnTrackingNumber := Some returnTrackingNumber |});;
  write (assignShippingStatus (JS.Str "Returned"));;
  ts ← newDate;
  addTrackingEvent "returned" ("Colis retourné - Raison: " ++ reason) emptyLocation (Some ts);;
  save.

(** *** [getShippingStats] (lines 266-304)

    The static method runs an aggregation on the collection, given here as
    the list of its documents in scan order.  [sellerId] is the argument as
    the caller passes it, a string; the dates are [Date]s already; an
    absent argument is [None].  The [sellerID] of a stored document is the
    24 lower-case hexadecimal digits of its id. *)

Definition isHexDigit (c : ascii) : bool :=
  let n := nat_of_ascii c in
  ((48 <=? n) && (n <=? 57) || (97 <=? n) && (n <=? 102) || (65 <=? n) && (n <=? 70))%nat.

(** [new mongoose.Types.ObjectId(sellerId)] (line 268) on a string: the
    constructor takes the 24 hexadecimal digits of an id, in either case,
    and throws on any other string ([None]); earlier versions of the
    driver also took a string of 12 bytes. *)
Definition newObjectId (s : string) : option ObjectId :=
  if (String.length s =? 24)%nat && forallb isHexDigit (list_ascii_of_string s)
  then Some (JS.toLowerCase s)
  else None.

(** [{ $gte: ..., $lte: ... }] *)
Record DateRange := {
  gte : option Date;
  lte : option Date
}.

Record MatchStage := {
  match_sellerID : option ObjectId;
  match_shippedAt : option DateRange
}.

(** Lines 267-273; [None] when the constructor of line 268 throws.  The
    test [if (sellerId)] fails on an absent argument and on the empty
    string. *)
Definition buildMatchStage (sellerId : option string) (startDate endDate : option Date)
  : option MatchStage :=
  match sellerId with
  | Some s =>
      if bool_decide (s = "") then Some None
      else match newObjectId s with
           | Some i => Some (Some i)
           | None => None
           end
  | None => Some None
  end ≫= fun sellerID =>
  Some {| match_sellerID := sellerID;
          match_shippedAt :=
            if bool_decide (is_Some startDate) || bool_decide (is_Some endDate)
            then Some {| gte := startDate; lte := endDate |}
            else None |}.

(** A comparison operator selects no document whose field is missing; a
    range without operator would ask for equality with the empty object. *)
Definition inRange (r : DateRange) (v : option Date) : bool :=
  match v with
  | None => false
  | Some t =>
      match gte r, lte r with
      | None, None => false
      | lo, hi =>
          match lo with Some a => (a <=? t)%Z | None => true end
          && match hi with Some b => (t <=? b)%Z | None => true end
      end
  end.

(** [$match] *)
Definition matches (m : MatchStage) (d : Shipping) : bool :=
  match match_sellerID m with
  | Some i => bool_decide (sellerID d = i)
  | None => true
  end
  && match match_shippedAt m with
     | Some r => inRange r (shippedAt d)
     | None => true
     end.

Record Stats := {
  totalShipments : nat;
  deliveredCount : nat;
  inTransitCount : nat;
  failedCount : nat;
  averageDeliveryDays : option Q;
  carrierBreakdown : list string
}.

(** The accumulators of the [$group] stage; [$avg] keeps a sum and the
    number of its non-null inputs. *)
Record Group := {
  g_total : nat;
  g_delivered : nat;
  g_inTransit : nat;
  g_failed : nat;
  g_sum : Q;
  g_count : nat;
  g_carriers : list string
}.

Definition emptyGroup : Group :=
  {| g_total := 0; g_delivered := 0; g_inTransit := 0; g_failed := 0;
     g_sum := 0%Q; g_count := 0; g_carriers := [] |}.

(** [$cond: [c, 1, 0]] *)
Definition cond (c : bool) : nat := if c then 1 else 0.

(** The input of [$avg] for one document: the duration in days when both
    dates are set, [null] otherwise. *)
Definition deliveryDays (d : Shipping) : option Q :=
  match shippedAt d, actualDeliveryDate d with
  | Some s, Some a => Some (inject_Z (a - s) / inject_Z msPerDay)%Q
  | _, _ => None
  end.

Definition accumulate (g : Group) (d : Shipping) : Group :=
  {| g_total := g_total g + 1;
     g_delivered :=
       g_delivered g + cond (bool_decide (shippingStatus d = Some "Delivered"));
     g_inTransit :=
       g_inTransit g
       + cond (bool_decide (shippingStatus d ∈
                 [Some "Shipped"; Some "In Transit"; Some "Out for Delivery"]));
     g_failed :=
       g_failed g + cond (bool_decide (shippingStatus d = Some "Delivery Failed"));
     g_sum := match deliveryDays d with Some q => (g_sum g + q)%Q | None => g_sum g end;
     g_count := match deliveryDays d with Some _ => g_count g + 1 | None => g_count g end;
     g_carriers := g_carriers g ++ [carrier d] |}.

Definition finish (g : Group) : Stats :=
  {| totalShipments := g_total g;
     deliveredCount := g_delivered g;
     inTransitCount := g_inTransit g;
     failedCount := g_failed g;
     averageDeliveryDays :=
       if (g_count g =? 0)%nat then None
       else Some (g_sum g / inject_Z (Z.of_nat (g_count g)))%Q;
     carrierBreakdown := g_carriers g |}.

(** [aggregate([{ $match }, { $group: { _id: null, ... } }])]: one group
    when a document matches, no result otherwise. *)
Definition aggregate (collection : list Shipping) (m : MatchStage) : list Stats :=
  match filter (fun d => matches m d = true) collection with
  | [] => []
  | docs => [finish (foldl accumulate emptyGroup docs)]
  end.

(** An [async] function returns a promise, which resolves with the value
    returned or rejects with what the body throws. *)
Inductive Settled (A : Type) :=
| Resolves (a : A)
| Rejects.
Arguments Resolves {A} a.
Arguments Rejects {A}.

Definition getShippingStats (collection : list Shipping)
    (sellerId : option string) (startDate endDate : option Date) : Settled Stats :=
  match buildMatchStage sellerId startDate endDate with
  | None => Rejects
  | Some matchStage =>
      let stats := aggregate collection matchStage in
      match stats with
      | s :: _ => Resolves s
      | [] =>
          Resolves
            {| totalShipments := 0; deliveredCount := 0; inTransitCount := 0;
               failedCount := 0; averageDeliveryDays := Some 0%Q; carrierBreakdown := [] |}
      end
  end.

(** ** Statements used by the properties *)

(** A day that the estimate counts: never a Sunday, a Saturday only with
    Saturday delivery. *)
Definition businessDay (tz : Z) (saturdayDelivery : bool) (t : Date) : bool :=
  negb (getDay tz t =? 0)%Z && (negb (getDay tz t =? 6)%Z || saturdayDelivery).

(** The number of counted days among the [k] calendar days that follow [t]. *)
Fixpoint countedDays (tz : Z) (saturdayDelivery : bool) (k : nat) (t : Date) : nat :=
  match k with
  | O => 0
  | S k' =>
      (if businessDay tz saturdayDelivery (nextDay t) then 1 else 0)
      + countedDays tz saturdayDelivery k' (nextDay t)
  end.

(** [r] is the first date, going one calendar day at a time from [t], at
    which [n] days have been counted. *)
Definition reachedAfter (tz : Z) (saturdayDelivery : bool) (n : nat) (t r : Date) : Prop :=
  exists k : nat,
    r = (t + Z.of_nat k * msPerDay)%Z
    /\ countedDays tz saturdayDelivery k t = n
    /\ forall j : nat, j < k -> countedDays tz saturdayDelivery j t < n.

(** The number of days to count as the specification words it: [max], and
    7 when [max] is absent. *)
Definition daysToCount_spec (timeframe : DeliveryTimeframe) : Z :=
  match max timeframe with
  | Some m => m
  | None => 7
  end.

(** Events in timestamp-descending order. *)
Definition timestampDescending (l : list TrackingEvent) : Prop :=
  StronglySorted (fun a b => (timestamp b <= timestamp a)%Z) l.

(** The mean of a list of rationals. *)
Definition mean (l : list Q) : Q :=
  (foldr Qplus 0 l / inject_Z (Z.of_nat (length l)))%Q.

(** A string written with the characters of ASCII alone.  White space
    and letter case are modelled for these characters only; on such a
    string [trim], [toLowerCase] and the class [\s] are those of
    JavaScript. *)
Definition asciiOnly (s : string) : bool :=
  forallb (fun c => (nat_of_ascii c <? 128)%nat) (list_ascii_of_string s).

(** The strings that denote an id: 24 hexadecimal digits. *)
Definition hexDigits : list ascii := list_ascii_of_string "0123456789abcdefABCDEF".

Definition objectIdString (s : string) : Prop :=
  String.length s = 24 /\ Forall (fun c => c ∈ hexDigits) (list_ascii_of_string s).

(** A [sellerId] with which [getShippingStats] builds its filter: none,
    the empty string, or the digits of an id. *)
Definition sellerIdAccepted (sellerId : option string) : Prop :=
  match sellerId with
  | Some s => s = "" \/ objectIdString s
  | None => True
  end.

(** The calls that reach a document: the methods of the model, a save, and
    a plain assignment to [shippingStatus] by a caller. *)
Inductive Call :=
| CallUpdateStatus (newStatus description : string) (location : Location)
| CallAddTrackingEvent (status description : string) (location : Location)
    (timestamp : option Date)
| CallGenerateTrackingUrl
| CallCalculateEstimatedDelivery (fuel : nat) (tz : Z)
| CallGetLatestTrackingEvent
| CallMarkAsDelivered (receivedBy deliveryLocation signature photo notes : string)
| CallProcessReturn (reason returnTrackingNumber : string)
| CallAssignShippingStatus (v : string)
| CallSave.

Definition perform (c : Call) (w : World) : World :=
  match c with
  | CallUpdateStatus s d l => (updateStatus s d l w).2
  | CallAddTrackingEvent s d l t => (addTrackingEvent s d l t w).2
  | CallGenerateTrackingUrl => (generateTrackingUrl w).2
  | CallCalculateEstimatedDelivery fuel tz => (calculateEstimatedDelivery fuel tz w).2
  | CallGetLatestTrackingEvent => (getLatestTrackingEvent w).2
  | CallMarkAsDelivered r l s p n => (markAsDelivered r l s p n w).2
  | CallProcessReturn r t => (processReturn r t w).2
  | CallAssignShippingStatus v => (write (assignShippingStatus (JS.Str v)) w).2
  | CallSave => (save w).2
  end.

Definition performAll (cs : list Call) (w : World) : World := foldl (fun w c => perform c w) w cs.

(** *** Sample data *)

Definition noDelivery : Delivery :=
  {| receivedBy := None; deliveryLocation := None; signature := None;
     deliveryPhoto := None; deliveryNotes := None |}.

Definition noReturn : Return :=
  {| isReturned := false; reason := None; returnedAt := None;
     returnTrackingNumber := None |}.

(** A stored shipment, as loaded: pending, never shipped. *)
Definition pendingShipment : Shipping :=
  {| sellerID := "64b7f3e8c0a4d2195e6f1a01"; carrier := "La Poste";
     trackingNumber := "LP123456789FR"; trackingUrl := None;
     shippingStatus := Some "Pending"; saturdayDelivery := false;
     shippedAt := None; estimatedDeliveryDate := None; actualDeliveryDate := None;
     deliveryTimeframe := Some {| min := Some 2%Z; max := Some 5%Z |};
     trackingEvents := []; lastTrackingUpdate := None;
     delivery := noDelivery; return_ := noReturn;
     isNew := false; statusModified := false |}.

(** A clock that advances by one millisecond at each read, from
    2024-01-01T00:00:00Z. *)
Definition sampleClock (n : nat) : Date := (1704067200000 + Z.of_nat n)%Z.

Definition sampleWorld (d : Shipping) : World :=
  {| this := d; clock := sampleClock; ticks := 0 |}.

(** Shipped on Monday 2024-01-01 at 00:00 UTC with a delivery time-frame
    of zero days. *)
Definition sameDayShipment : Shipping :=
  {| sellerID := "64b7f3e8c0a4d2195e6f1a01"; carrier := "Chronopost";
     trackingNumber := "XY987654321FR"; trackingUrl := None;
     shippingStatus := Some "Shipped"; saturdayDelivery := false;
     shippedAt := Some 1704067200000%Z; estimatedDeliveryDate := None;
     actualDeliveryDate := None;
     deliveryTimeframe := Some {| min := Some 0%Z; max := Some 0%Z |};
     trackingEvents := []; lastTrackingUpdate := None;
     delivery := noDelivery; return_ := noReturn;
     isNew := false; statusModified := false |}.

(** Shipped on the same Monday with a time-frame of two to five days. *)
Definition mondayShipment : Shipping :=
  {| sellerID := "64b7f3e8c0a4d2195e6f1a01"; carrier := "Chronopost";
     trackingNumber := "XY987654322FR"; trackingUrl := None;
     shippingStatus := Some "Shipped"; saturdayDelivery := false;
     shippedAt := Some 1704067200000%Z; estimatedDeliveryDate := None;
     actualDeliveryDate := None;
     deliveryTimeframe := Some {| min := Some 2%Z; max := Some 5%Z |};
     trackingEvents := []; lastTrackingUpdate := None;
     delivery := noDelivery; return_ := noReturn;
     isNew := false; statusModified := false |}.

(** Shipped on the same Monday, with nothing stored under
    [deliveryTimeframe]. *)
Definition noTimeframeShipment : Shipping :=
  {| sellerID := "64b7f3e8c0a4d2195e6f1a01"; carrier := "Chronopost";
     trackingNumber := "XY987654323FR"; trackingUrl := None;
     shippingStatus := Some "Shipped"; saturdayDelivery := false;
     shippedAt := Some 1704067200000%Z; estimatedDeliveryDate := None;
     actualDeliveryDate := None;
     deliveryTimeframe := None;
     trackingEvents := []; lastTrackingUpdate := None;
     delivery := noDelivery; return_ := noReturn;
     isNew := false; statusModified := false |}.

(** ** The rest of the model: virtuals, [isLate], [getLateShipments] *)

(** [Math.ceil(a / b)] for a positive [b]. *)
Definition ceilDiv (a b : Z) : Z := (- ((- a) / b))%Z.

(** The virtual [isInTransit] (lines 139-141) *)
Definition isInTransit (d : Shipping) : bool :=
  bool_decide (shippingStatus d ∈
                 [Some "Shipped"; Some "In Transit"; Some "Out for Delivery"]).

(** The virtual [isDelivered] (lines 143-145) *)
Definition isDelivered (d : Shipping) : bool :=
  bool_decide (shippingStatus d = Some "Delivered").

(** The virtual [actualDeliveryDays] (lines 147-153) *)
Definition actualDeliveryDays (d : Shipping) : option Z :=
  match shippedAt d, actualDeliveryDate d with
  | Some shipped, Some delivered => Some (ceilDiv (delivered - shipped) msPerDay)
  | _, _ => None
  end.

(** [isLate] (lines 224-227); the clock is read only when the first test
    fails. *)
Definition isLate : M bool :=
  d ← read id;
  match estimatedDeliveryDate d with
  | None => mret false
  | Some estimate =>
      if isDelivered d then mret false
      else t ← newDate; mret (estimate <? t)%Z
  end.

(** [getLateShipments] (lines 255-264), on the list of the documents of
    the collection and with [today] the value of its [new Date()].  The
    two [populate] calls replace references by the documents they name
    and change neither the selection nor the order; they are left out.
    [sort({ estimatedDeliveryDate: 1 })] is ascending, an absent date
    first; the order among equal dates is the database's, the model
    keeps the scan order. *)
Definition lateFilter (today : Date) (d : Shipping) : bool :=
  bool_decide (shippingStatus d ∈
                 [Some "Shipped"; Some "In Transit"; Some "Out for Delivery"])
  && match estimatedDeliveryDate d with
     | Some estimate => (estimate <? today)%Z
     | None => false
     end.

Definition byEstimateAsc (a b : Shipping) : Z :=
  match estimatedDeliveryDate a, estimatedDeliveryDate b with
  | Some x, Some y => (x - y)%Z
  | None, Some _ => (-1)%Z
  | Some _, None => 1%Z
  | None, None => 0%Z
  end.

Definition getLateShipments (collection : list Shipping) (today : Date) : list Shipping :=
  JS.sort byEstimateAsc (filter (fun d => lateFilter today d = true) collection).

(** ** The global error handler of the server (src/unnamed/part_000, lines 83-113)

    The error object, as far as the handler reads it.  [errors] lists the
    entries of [error.errors] in the order of [Object.values]; [keyValue]
    lists the keys of [error.keyValue].  The handler first logs the error
    on the console, which the response does not show. *)

(** A value held by [error.errors]: [null] or [undefined], on which
    reading [message] throws, or a value with its [message], [None] when
    it has none. *)
Inductive ErrorEntry :=
| Nullish
| WithMessage (message : option string).

(** [err => err.message] *)
Definition messageOf (entry : ErrorEntry) : option (option string) :=
  match entry with
  | Nullish => None
  | WithMessage message => Some message
  end.

Record ErrorObject := {
  err_name : option string;
  err_errors : option (list (string * ErrorEntry));
  err_code : option Z;
  err_keyValue : option (list string);
  err_status : option Z;
  err_message : option string;
  err_stack : option string
}.

(** The object given to [res.json]: [errors] and [stack] are keys that may
    be missing; a [stack] key may hold [undefined]. *)
Record ResponseBody := {
  res_success : bool;
  res_message : string;
  res_errors : option (list (option string));
  res_stack : option (option string)
}.

Record Response := {
  res_status : Z;
  res_body : ResponseBody
}.

(** The handler answers, or throws a [TypeError] itself. *)
Inductive Handled :=
| Responds (r : Response)
| ThrowsTypeError.

Definition respond (status : Z) (message : string) : Handled :=
  Responds {| res_status := status;
              res_body := {| res_success := false; res_message := message;
                             res_errors := None; res_stack := None |} |}.

(** [`${field} already exists`], with [field] the first key or [undefined] *)
Definition alreadyExists (field : option string) : string :=
  match field with
  | Some f => f ++ " already exists"
  | None => "undefined already exists"
  end.

Definition errorHandler (nodeEnv : option string) (error : ErrorObject) : Handled :=
  if bool_decide (err_name error = Some "ValidationError") then
    match err_errors error with
    | None => ThrowsTypeError
    | Some entries =>
        match mapM messageOf (map snd entries) with
        | None => ThrowsTypeError
        | Some errors =>
            Responds {| res_status := 400;
                        res_body := {| res_success := false; res_message := "Invalid data";
                                       res_errors := Some errors;
                                       res_stack := None |} |}
        end
    end
  else if bool_decide (err_name error = Some "CastError") then
    respond 400 "Invalid ID"
  else if bool_decide (err_code error = Some 11000%Z) then
    match err_keyValue error with
    | None => ThrowsTypeError
    | Some keys => respond 400 (alreadyExists (head keys))
    end
  else if bool_decide (err_name error = Some "JsonWebTokenError") then
    respond 401 "Invalid token"
  else if bool_decide (err_name error = Some "TokenExpiredError") then
    respond 401 "Token expired"
  else
    Responds {| res_status := JS.numberOr (err_status error) 500;
                res_body :=
                  {| res_success := false;
                     res_message :=
                       match err_message error with
                       | Some m => if String.eqb m "" then "Internal server error" else m
                       | None => "Internal server error"
                       end;
                     res_errors := None;
                     res_stack :=
                       if bool_decide (nodeEnv = Some "development")
                       then Some (err_stack error) else None |} |}.

(** ** [connectDB] (src/config/database.js, lines 3-14)

    What a run does, in order: lines on the console and calls of
    [mongoose.connect].  [connect] gives the outcome of the call: [None]
    when it resolves, the message of the error when it rejects. *)

Inductive Effect :=
| ConsoleWarn (line : string)
| ConsoleLog (line : string)
| ConsoleError (line : string) (detail : string)
| MongooseConnect (uri : string).

Definition connectDB (MONGODB_URI : option string) (connect : string -> option string)
  : list Effect :=
  match MONGODB_URI with
  | None => [ConsoleWarn "⚠️ MONGODB_URI missing, skipping DB connection"]
  | Some uri =>
      if String.eqb uri "" then [ConsoleWarn "⚠️ MONGODB_URI missing, skipping DB connection"]
      else
        match connect uri with
        | None => [MongooseConnect uri; ConsoleLog "✅ MongoDB connected"]
        | Some message =>
            [MongooseConnect uri; ConsoleError "❌ MongoDB connection failed:" message]
        end
  end.

(** An effect that writes a line on the console. *)
Definition isConsole (e : Effect) : bool :=
  match e with
  | MongooseConnect _ => false
  | _ => true
  end.

(** The errors that the handler recognises, by name or by code. *)
Definition recognised (error : ErrorObject) : Prop :=
  err_name error ∈ [ Some "ValidationError"; Some "CastError";
                     Some "JsonWebTokenError"; Some "TokenExpiredError" ]
  \/ err_code error = Some 11000%Z.

(** * Properties *)

(** ** Running the monad *)

Ltac run_M :=
  cbv [mbind M_bind mret M_ret read write newDate];
  cbn [this clock ticks fst snd id].

(** Closed decidable goals are settled by evaluation. *)
Ltac decide_closed := apply (bool_decide_unpack _); vm_compute; exact I.

Lemma check_nil (b : bool) (p : string) : Mongoose.check b p = [] <-> b = true.
Proof. destruct b; simpl; split; congruence. Qed.

Lemma flat_map_nil {A B : Type} (f : A -> list B) (l : list A) :
  flat_map f l = [] <-> Forall (fun x => f x = []) l.
Proof.
  induction l as [|x l IH]; simpl.
  - split; [constructor | reflexivity].
  - rewrite app_nil, IH. split.
    + intros [Hx Hl]. constructor; assumption.
    + intros H. inversion H; subst. split; assumption.
Qed.

(** A document is valid exactly when each of its validators passes. *)
Lemma validate_nil (d : Shipping) :
  validate d = [] <->
    (Mongoose.requiredValidator (Some (carrier d))
     && Mongoose.enumValidator carrierEnum (Some (carrier d)) = true)
    /\ Mongoose.requiredValidator (Some (trackingNumber d)) = true
    /\ Mongoose.enumValidator shippingStatusEnum (shippingStatus d) = true
    /\ validateTimeframe (deliveryTimeframe d) = []
    /\ Forall (fun e => validateTrackingEvent e = []) (trackingEvents d)
    /\ Mongoose.maxlengthValidator 500 (deliveryNotes (delivery d)) = true
    /\ Mongoose.enumValidator returnReasonEnum (reason (return_ d)) = true.
Proof.
  unfold validate. rewrite !app_nil, !check_nil, flat_map_nil. tauto.
Qed.

Lemma addTrackingEvent_run token description location timestamp w :
  addTrackingEvent token description location timestamp w =
  let n := match timestamp with Some _ => 0 | None => 1 end in
  let ev := {| status := token; description := description; location := location;
               timestamp := default (now w) timestamp; source := "manual" |} in
  let d1 := set_lastTrackingUpdate (Some (clock w (ticks w + n)))
              (pushTrackingEvent ev (this w)) in
  let d2 := if JS.truthy (JS.get statusMapping token)
            then assignShippingStatus (JS.get statusMapping token) d1 else d1 in
  (d2, {| this := d2; clock := clock w; ticks := S (ticks w + n) |}).
Proof.
  unfold addTrackingEvent, now.
  destruct timestamp; run_M; destruct (JS.truthy _); run_M;
    rewrite ?Nat.add_0_r, ?Nat.add_1_r; reflexivity.
Qed.

(** ** [addTrackingEvent] *)

Lemma statusMapping_lookup (k v : string) :
  statusMapping !! k = Some v <->
  (k, v) ∈ [ ("delivered", "Delivered"); ("out_for_delivery", "Out for Delivery");
             ("in_transit", "In Transit"); ("picked_up", "Shipped");
             ("exception", "Delivery Failed"); ("returned", "Returned");
             ("lost", "Lost"); ("damaged", "Damaged") ].
Proof.
  unfold statusMapping. symmetry. apply elem_of_list_to_map.
  decide_closed.
Qed.

Lemma statusMapping_truthy (k v : string) :
  statusMapping !! k = Some v -> JS.truthy (JS.Str v) = true.
Proof.
  rewrite statusMapping_lookup. intros H.
  repeat (apply elem_of_cons in H as [H|H]; [simplify_eq; reflexivity|]).
  inversion H.
Qed.

Lemma enum_tokens_not_inherited (token : string) :
  token ∈ trackingEventStatusEnum -> JS.objectPrototype !! token = None.
Proof.
  unfold trackingEventStatusEnum. intros H.
  repeat (apply elem_of_cons in H as [->|H]; [reflexivity|]).
  inversion H.
Qed.

(** C2.  [addTrackingEvent] appends one event with the given token, the
    trimmed description, the given timestamp or else the time of the
    call, and source "manual"; it sets [lastTrackingUpdate] to the next
    clock value; a token that is a key of the status mapping overwrites
    the shipping status with the mapped value; a token of the event-status
    enumeration outside the mapping leaves the status unchanged, and so
    does every other string that is neither a key of the mapping nor the
    name of a member inherited from [Object.prototype]. *)
Theorem addTrackingEvent_appends_and_maps
    (w : World) (token description : string) (location : Location)
    (timestamp : option Date) :
  let w' := (addTrackingEvent token description location timestamp w).2 in
  trackingEvents (this w') =
    (trackingEvents (this w) ++
       [ {| status := token; description := JS.trim description;
            location := location; timestamp := default (now w) timestamp;
            source := "manual" |} ])%list
  /\ lastTrackingUpdate (this w') =
       Some (clock w (ticks w + match timestamp with Some _ => 0 | None => 1 end))
  /\ (forall mapped : string,
        (token, mapped) ∈
          [ ("delivered", "Delivered"); ("out_for_delivery", "Out for Delivery");
            ("in_transit", "In Transit"); ("picked_up", "Shipped");
            ("exception", "Delivery Failed"); ("returned", "Returned");
            ("lost", "Lost"); ("damaged", "Damaged") ] ->
        shippingStatus (this w') = Some mapped)
  /\ (token ∈ trackingEventStatusEnum ->
      token ∉ [ "delivered"; "out_for_delivery"; "in_transit"; "picked_up";
                "exception"; "returned"; "lost"; "damaged" ] ->
      shippingStatus (this w') = shippingStatus (this w))
  /\ (statusMapping !! token = None ->
      JS.objectPrototype !! token = None ->
      shippingStatus (this w') = shippingStatus (this w)).
Proof.
  intros w'. subst w'. rewrite addTrackingEvent_run. cbn [snd this].
  assert (Hunmapped : statusMapping !! token = None ->
                      JS.objectPrototype !! token = None ->
                      shippingStatus
                        (if JS.truthy (JS.get statusMapping token)
                         then assignShippingStatus (JS.get statusMapping token)
                                (set_lastTrackingUpdate
                                   (Some (clock w (ticks w + match timestamp with Some _ => 0 | None => 1 end)))
                                   (pushTrackingEvent
                                      {| status := token; description := description;
                                         location := location;
                                         timestamp := default (now w) timestamp;
                                         source := "manual" |} (this w)))
                         else set_lastTrackingUpdate
                                (Some (clock w (ticks w + match timestamp with Some _ => 0 | None => 1 end)))
                                (pushTrackingEvent
                                   {| status := token; description := description;
                                      location := location;
                                      timestamp := default (now w) timestamp;
                                      source := "manual" |} (this w)))
                      = shippingStatus (this w)).
  { intros Hown Hproto. unfold JS.get. rewrite Hown, Hproto. reflexivity. }
  repeat split.
  - destruct (JS.truthy _); [|reflexivity].
    unfold assignShippingStatus. destruct (Mongoose.castString _); reflexivity.
  - destruct (JS.truthy _); [|reflexivity].
    unfold assignShippingStatus. destruct (Mongoose.castString _); reflexivity.
  - intros mapped Hin. apply statusMapping_lookup in Hin.
    unfold JS.get. rewrite Hin, (statusMapping_truthy _ _ Hin). reflexivity.
  - intros Henum Hout. apply Hunmapped.
    + destruct (statusMapping !! token) as [v|] eqn:E; [|reflexivity].
      exfalso. apply Hout. apply statusMapping_lookup in E.
      repeat (apply elem_of_cons in E as [E|E]; [simplify_eq; decide_closed|]).
      inversion E.
    + apply enum_tokens_not_inherited, Henum.
  - exact Hunmapped.
Qed.

Lemma addTrackingEvent_appends_and_maps_witness :
  shippingStatus
    (this (addTrackingEvent "delivered" "Remis au destinataire" emptyLocation None
             (sampleWorld pendingShipment)).2) = Some "Delivered"
  /\ shippingStatus
       (this (addTrackingEvent "label_created" "Etiquette" emptyLocation None
                (sampleWorld pendingShipment)).2) = Some "Pending".
Proof.
  split.
  - destruct (addTrackingEvent_appends_and_maps (sampleWorld pendingShipment)
                "delivered" "Remis au destinataire" emptyLocation None)
      as (_ & _ & Hmapped & _).
    apply Hmapped. decide_closed.
  - destruct (addTrackingEvent_appends_and_maps (sampleWorld pendingShipment)
                "label_created" "Etiquette" emptyLocation None)
      as (_ & _ & _ & Hother & _).
    apply Hother.
    + decide_closed.
    + decide_closed.
Defined.

(** A name inherited from [Object.prototype] is not a key of the mapping,
    yet the lookup finds the inherited member: the status is overwritten
    with the text of the function.  Such an event never passes
    validation, its status being outside the enumeration. *)
Example addTrackingEvent_inherited_member :
  statusMapping !! "constructor" = None
  /\ shippingStatus
       (this (addTrackingEvent "constructor" "x" emptyLocation None
                (sampleWorld pendingShipment)).2)
     = Some "function Object() { [native code] }"
  /\ ("constructor" ∉ trackingEventStatusEnum).
Proof. split; [reflexivity|split; [reflexivity|decide_closed]]. Qed.

(** ** [generateTrackingUrl] *)

Lemma trimEnd_fixed_tail (c : ascii) (s : string) :
  JS.trimEnd (String c s) = String c s -> JS.trimEnd s = s.
Proof.
  simpl. destruct (JS.trimEnd s) as [|c' s'] eqn:E.
  - destruct (JS.isWhitespace c); [discriminate|]. intros H. injection H as <-. reflexivity.
  - intros H. injection H as <-. reflexivity.
Qed.

Lemma trimEnd_app (p t : string) :
  JS.trimEnd p = p -> JS.trimEnd t = t -> JS.trimEnd (p ++ t) = p ++ t.
Proof.
  induction p as [|c p IH]; intros Hp Ht; [exact Ht|].
  pose proof (trimEnd_fixed_tail _ _ Hp) as Hp'.
  change (String c p ++ t) with (String c (p ++ t)).
  simpl. rewrite (IH Hp' Ht).
  destruct (p ++ t) as [|c' r] eqn:E; [|reflexivity].
  destruct p; [|discriminate]. simpl in Hp.
  destruct (JS.isWhitespace c); [discriminate|reflexivity].
Qed.

(** The six templates, as prefixes of the interpolated tracking number. *)
Lemma trackingUrls_lookup (tn c p : string) :
  (c, p) ∈
    [ ("La Poste", "https://www.laposte.fr/outils/suivre-vos-envois?code=");
      ("Chronopost", "https://www.chronopost.fr/tracking-colis?listeNumerosLT=");
      ("DHL", "https://www.dhl.com/fr-fr/home/tracking/tracking-express.html?submit=1&tracking-id=");
      ("UPS", "https://www.ups.com/track?loc=fr_FR&tracknum=");
      ("FedEx", "https://www.fedex.com/apps/fedextrack/?tracknumbers=");
      ("TNT", "https://www.tnt.com/express/fr_fr/site/shipping-tools/tracking.html?searchType=con&cons=") ] ->
  trackingUrls tn !! c = Some (p ++ tn)
  /\ JS.trimStart (p ++ tn) = p ++ tn
  /\ JS.trimEnd p = p
  /\ JS.truthy (JS.Str (p ++ tn)) = true.
Proof.
  intros H.
  repeat (apply elem_of_cons in H as [H|H];
          [simplify_eq; repeat split; reflexivity|]).
  inversion H.
Qed.

(** C9.  [generateTrackingUrl] returns what it writes into [trackingUrl]:
    for each of the six mapped carriers the template followed by the
    tracking number (a tracking number carries no trailing whitespace,
    its own path being trimmed), and the empty string for the carriers of
    the enumeration without a template, "Mondial Relay" and "Autre", as
    for every other name that is neither a key of the table nor the name
    of a member inherited from [Object.prototype]. *)
Theorem generateTrackingUrl_by_carrier (w : World) :
  let r := generateTrackingUrl w in
  r.1 = trackingUrl (this r.2)
  /\ (forall template : string,
        (carrier (this w), template) ∈
          [ ("La Poste", "https://www.laposte.fr/outils/suivre-vos-envois?code=");
            ("Chronopost", "https://www.chronopost.fr/tracking-colis?listeNumerosLT=");
            ("DHL", "https://www.dhl.com/fr-fr/home/tracking/tracking-express.html?submit=1&tracking-id=");
            ("UPS", "https://www.ups.com/track?loc=fr_FR&tracknum=");
            ("FedEx", "https://www.fedex.com/apps/fedextrack/?tracknumbers=");
            ("TNT", "https://www.tnt.com/express/fr_fr/site/shipping-tools/tracking.html?searchType=con&cons=") ] ->
        JS.trimEnd (trackingNumber (this w)) = trackingNumber (this w) ->
        r.1 = Some (template ++ trackingNumber (this w)))
  /\ (carrier (this w) ∈ carrierEnum ->
      carrier (this w) ∉ [ "La Poste"; "Chronopost"; "DHL"; "UPS"; "FedEx"; "TNT" ] ->
      r.1 = Some "")
  /\ (carrier (this w) = "Autre" -> r.1 = Some "")
  /\ (trackingUrls (trackingNumber (this w)) !! carrier (this w) = None ->
      JS.objectPrototype !! carrier (this w) = None ->
      r.1 = Some "").
Proof.
  intros r. subst r. unfold generateTrackingUrl. run_M.
  assert (Hnone : trackingUrls (trackingNumber (this w)) !! carrier (this w) = None ->
                  JS.objectPrototype !! carrier (this w) = None ->
                  trackingUrl
                    (assignTrackingUrl
                       (JS.or (JS.get (trackingUrls (trackingNumber (this w))) (carrier (this w)))
                              (JS.Str "")) (this w)) = Some "").
  { intros Hown Hproto. unfold JS.get. rewrite Hown, Hproto. reflexivity. }
  assert (Henum : carrier (this w) ∈ carrierEnum ->
                  carrier (this w) ∉ [ "La Poste"; "Chronopost"; "DHL"; "UPS"; "FedEx"; "TNT" ] ->
                  trackingUrls (trackingNumber (this w)) !! carrier (this w) = None
                  /\ JS.objectPrototype !! carrier (this w) = None).
  { intros Hin Hout. unfold carrierEnum in Hin.
    repeat (apply elem_of_cons in Hin as [Hin|Hin];
            [first [ exfalso; apply Hout; rewrite Hin; decide_closed
                   | rewrite Hin; split; reflexivity ]|]).
    inversion Hin. }
  repeat split.
  - intros template Hin Htn.
    destruct (trackingUrls_lookup (trackingNumber (this w)) _ _ Hin)
      as (Hlook & Hstart & Hend & Htruthy).
    unfold JS.get. rewrite Hlook. unfold JS.or. rewrite Htruthy.
    unfold assignTrackingUrl. cbn [Mongoose.castString fmap option_fmap option_map set_trackingUrl trackingUrl].
    unfold JS.trim. rewrite Hstart, (trimEnd_app _ _ Hend Htn). reflexivity.
  - intros Hin Hout. destruct (Henum Hin Hout) as [Hown Hproto]. exact (Hnone Hown Hproto).
  - intros Hautre. apply Hnone; rewrite Hautre; reflexivity.
  - exact Hnone.
Qed.

Lemma generateTrackingUrl_by_carrier_witness :
  (generateTrackingUrl (sampleWorld pendingShipment)).1 =
    Some "https://www.laposte.fr/outils/suivre-vos-envois?code=LP123456789FR".
Proof.
  destruct (generateTrackingUrl_by_carrier (sampleWorld pendingShipment))
    as (_ & Htemplate & _).
  apply (Htemplate "https://www.laposte.fr/outils/suivre-vos-envois?code=").
  - decide_closed.
  - reflexivity.
Defined.

(** ** The save path *)

Ltac case_if :=
  match goal with
  | |- context [if ?b then _ else _] => destruct b eqn:?
  end.

Ltac run_all := run_M; repeat (case_if; run_M).

(** What [pre('save')] leaves alone. *)
Lemma preSave_frame (w : World) :
  let d := this w in
  let d' := this (preSave w).2 in
  shippingStatus d' = shippingStatus d
  /\ trackingEvents d' = trackingEvents d
  /\ delivery d' = delivery d
  /\ return_ d' = return_ d
  /\ lastTrackingUpdate d' = lastTrackingUpdate d
  /\ trackingUrl d' = trackingUrl d
  /\ estimatedDeliveryDate d' = estimatedDeliveryDate d
  /\ statusModified d' = statusModified d
  /\ isNew d' = isNew d
  /\ clock (preSave w).2 = clock w.
Proof.
  unfold preSave. run_all; cbn; repeat split; reflexivity.
Qed.

Lemma preSave_shippedAt (w : World) :
  shippedAt (this (preSave w).2) =
    if statusModified (this w)
       && bool_decide (shippingStatus (this w) = Some "Shipped")
       && negb (bool_decide (is_Some (shippedAt (this w))))
    then Some (now w) else shippedAt (this w).
Proof.
  unfold preSave, now. run_all; reflexivity.
Qed.

Lemma preSave_actualDeliveryDate (w : World) :
  shippingStatus (this w) <> Some "Shipped" \/ is_Some (shippedAt (this w)) ->
  actualDeliveryDate (this (preSave w).2) =
    if statusModified (this w)
       && bool_decide (shippingStatus (this w) = Some "Delivered")
       && negb (bool_decide (is_Some (actualDeliveryDate (this w))))
    then Some (now w) else actualDeliveryDate (this w).
Proof.
  intros Hfirst. unfold preSave, now. run_M.
  destruct (statusModified (this w) && bool_decide (shippingStatus (this w) = Some "Shipped")
            && negb (bool_decide (is_Some (shippedAt (this w))))) eqn:E1.
  - exfalso. apply andb_prop in E1 as [E1 Hnone]. apply andb_prop in E1 as [_ Hs].
    apply bool_decide_eq_true in Hs. apply negb_true_iff, bool_decide_eq_false in Hnone.
    destruct Hfirst; contradiction.
  - run_all; reflexivity.
Qed.

Lemma preSave_actualDeliveryDate_kept (w : World) (t : Date) :
  actualDeliveryDate (this w) = Some t ->
  actualDeliveryDate (this (preSave w).2) = Some t.
Proof.
  intros H. unfold preSave. run_M. case_if; run_M; cbn [set_shippedAt actualDeliveryDate statusModified shippingStatus];
    rewrite H; rewrite (bool_decide_eq_true_2 (is_Some (Some t))) by eauto;
    rewrite andb_false_r; run_M; cbn; exact H.
Qed.

(** [save] on a valid document runs the middleware and resolves with the
    document; on an invalid one it rejects and changes nothing. *)
Lemma save_valid (w : World) :
  validate (this w) = [] ->
  save w = (Saved (markSaved (this (preSave w).2)),
            {| this := markSaved (this (preSave w).2);
               clock := clock (preSave w).2; ticks := ticks (preSave w).2 |}).
Proof.
  intros H. unfold save. run_M. rewrite H. run_M.
  destruct (preSave w) as [[] w']. reflexivity.
Qed.

Lemma save_invalid (w : World) :
  validate (this w) <> [] ->
  save w = (Rejected (Mongoose.ValidationError (validate (this w))), w).
Proof.
  intros H. unfold save. run_M. destruct (validate (this w)); [contradiction|reflexivity].
Qed.

Lemma save_cases (w : World) :
  (validate (this w) = [] /\ this (save w).2 = markSaved (this (preSave w).2))
  \/ (validate (this w) <> [] /\ (save w).2 = w).
Proof.
  destruct (validate (this w)) eqn:E.
  - left. split; [reflexivity|]. rewrite (save_valid w E). reflexivity.
  - right. split; [discriminate|]. rewrite save_invalid by (rewrite E; discriminate). reflexivity.
Qed.

(** What [save] leaves alone, whether it resolves or rejects. *)
Lemma save_frame (w : World) :
  let d := this w in
  let d' := this (save w).2 in
  shippingStatus d' = shippingStatus d
  /\ trackingEvents d' = trackingEvents d
  /\ delivery d' = delivery d
  /\ return_ d' = return_ d
  /\ lastTrackingUpdate d' = lastTrackingUpdate d
  /\ trackingUrl d' = trackingUrl d
  /\ estimatedDeliveryDate d' = estimatedDeliveryDate d.
Proof.
  cbv zeta. destruct (save_cases w) as [[_ ->]|[_ ->]]; [|repeat split; reflexivity].
  destruct (preSave_frame w) as (H1 & H2 & H3 & H4 & H5 & H6 & H7 & _).
  cbn. repeat split; assumption.
Qed.

Lemma save_shippedAt_kept (w : World) (t : Date) :
  shippedAt (this w) = Some t -> shippedAt (this (save w).2) = Some t.
Proof.
  intros H. destruct (save_cases w) as [[_ ->]|[_ ->]]; [|exact H].
  cbn. rewrite preSave_shippedAt, H.
  rewrite (bool_decide_eq_true_2 (is_Some (Some t))) by eauto.
  rewrite andb_false_r. reflexivity.
Qed.

Lemma save_actualDeliveryDate_kept (w : World) (t : Date) :
  actualDeliveryDate (this w) = Some t -> actualDeliveryDate (this (save w).2) = Some t.
Proof.
  intros H. destruct (save_cases w) as [[_ ->]|[_ ->]]; [|exact H].
  cbn. apply preSave_actualDeliveryDate_kept, H.
Qed.

(** ** Methods that end with [save] *)

Lemma updateStatus_run (newStatus description : string) (location : Location) (w : World) :
  updateStatus newStatus description location w =
  save (addTrackingEvent (JS.replaceWhitespace (JS.toLowerCase newStatus))
          description location None
          {| this := assignShippingStatus (JS.Str newStatus) (this w);
             clock := clock w; ticks := ticks w |}).2.
Proof.
  unfold updateStatus. run_M.
  destruct (addTrackingEvent _ _ _ _ _). reflexivity.
Qed.

Lemma markAsDelivered_run (receivedBy deliveryLocation signature photo notes : string)
    (w : World) :
  markAsDelivered receivedBy deliveryLocation signature photo notes w =
  save (addTrackingEvent "delivered"
          ("Colis livré" ++ (if JS.truthy (JS.Str receivedBy) then " à " ++ receivedBy else ""))
          emptyLocation (Some (clock w (S (ticks w))))
          {| this := assignDelivery receivedBy deliveryLocation signature photo notes
                       (set_actualDeliveryDate (Some (now w))
                          (assignShippingStatus (JS.Str "Delivered") (this w)));
             clock := clock w; ticks := S (S (ticks w)) |}).2.
Proof.
  unfold markAsDelivered, now. run_M.
  destruct (addTrackingEvent _ _ _ _ _). reflexivity.
Qed.

Lemma processReturn_run (reason returnTrackingNumber : string) (w : World) :
  processReturn reason returnTrackingNumber w =
  save (addTrackingEvent "returned" ("Colis retourné - Raison: " ++ reason)
          emptyLocation (Some (clock w (S (ticks w))))
          {| this := assignShippingStatus (JS.Str "Returned")
                       (set_return {| isReturned := true; reason := Some reason;
                                      returnedAt := Some (now w);
                                      returnTrackingNumber := Some returnTrackingNumber |}
                          (this w));
             clock := clock w; ticks := S (S (ticks w)) |}).2.
Proof.
  unfold processReturn, now. run_M.
  destruct (addTrackingEvent _ _ _ _ _). reflexivity.
Qed.

Lemma get_delivered : JS.get statusMapping "delivered" = JS.Str "Delivered".
Proof. reflexivity. Qed.

Lemma get_returned : JS.get statusMapping "returned" = JS.Str "Returned".
Proof. reflexivity. Qed.

Lemma trim_nonempty (c : ascii) (s : string) :
  JS.isWhitespace c = false -> String.eqb (JS.trim (String c s)) "" = false.
Proof.
  intros H. unfold JS.trim. cbn [JS.trimStart]. rewrite H.
  cbn [JS.trimEnd]. destruct (JS.trimEnd s); [rewrite H|]; reflexivity.
Qed.

Lemma required_trim_cons (c : ascii) (s : string) :
  JS.isWhitespace c = false ->
  Mongoose.requiredValidator (Some (JS.trim (String c s))) = true.
Proof.
  intros H. cbn [Mongoose.requiredValidator]. rewrite trim_nonempty by exact H. reflexivity.
Qed.

Lemma validate_return_reason (d : Shipping) (r : string) :
  reason (return_ d) = Some r ->
  r ∉ returnReasonEnum ->
  "return.reason" ∈ validate d.
Proof.
  intros Hr Hout. unfold validate. rewrite !elem_of_app. do 6 right.
  rewrite Hr. cbn [Mongoose.enumValidator].
  rewrite bool_decide_eq_false_2 by exact Hout. left.
Qed.

(** ** [processReturn] *)

(** C6.  [processReturn] sets the return sub-record to the flag [true],
    the reason, the time of the call and the return tracking number, sets
    the status to "Returned" and appends exactly one event, with token
    "returned"; with a reason of the return-reason enumeration, on a
    document that was valid, the save resolves with the document, and
    with a reason outside the enumeration it rejects. *)
Theorem processReturn_returns_shipment (w : World) (reason returnTrackingNumber : string) :
  let r := processReturn reason returnTrackingNumber w in
  return_ (this r.2) =
    {| isReturned := true; reason := Some reason; returnedAt := Some (now w);
       returnTrackingNumber := Some returnTrackingNumber |}
  /\ shippingStatus (this r.2) = Some "Returned"
  /\ trackingEvents (this r.2) =
       (trackingEvents (this w) ++
          [ {| status := "returned";
               description := JS.trim ("Colis retourné - Raison: " ++ reason);
               location := emptyLocation; timestamp := clock w (S (ticks w));
               source := "manual" |} ])%list
  /\ (reason ∈ returnReasonEnum -> validate (this w) = [] -> r.1 = Saved (this r.2))
  /\ (reason ∉ returnReasonEnum ->
      exists paths : list string,
        r.1 = Rejected (Mongoose.ValidationError paths) /\ "return.reason" ∈ paths).
Proof.
  cbv zeta. rewrite processReturn_run, addTrackingEvent_run, get_returned.
  cbn [snd this clock ticks JS.truthy String.eqb negb default].
  match goal with |- context [save ?w0] => set (mid := w0) end.
  destruct (save_frame mid) as (Hstatus & Hevents & _ & Hreturn & _).
  rewrite Hreturn, Hstatus, Hevents.
  split; [reflexivity|]. split; [reflexivity|]. split; [reflexivity|]. split.
  2:{ intros Hout.
      assert (Hin : "return.reason" ∈ validate (this mid))
        by (apply (validate_return_reason (this mid) reason); [reflexivity|exact Hout]).
      rewrite save_invalid by (intros E; rewrite E in Hin; inversion Hin).
      eexists. split; [reflexivity|exact Hin]. }
  intros Hreason Hvalid.
  assert (Hmid : validate (this mid) = []).
  { apply validate_nil in Hvalid as (Hc & Htn & _ & Htf & Hev & Hnotes & _).
    apply validate_nil. subst mid. cbn. repeat split; try assumption.
    - apply Forall_app. split; [exact Hev|]. constructor; [|constructor].
      unfold validateTrackingEvent. cbn [status description source].
      rewrite !app_nil, !check_nil. repeat split; try reflexivity.
      exact (required_trim_cons "C" ("olis retourné - Raison: " ++ reason) eq_refl).
    - apply bool_decide_eq_true. exact Hreason. }
  rewrite (save_valid mid Hmid). reflexivity.
Qed.

Lemma processReturn_returns_shipment_witness :
  (processReturn "other" "RT123" (sampleWorld pendingShipment)).1 =
  Saved (this (processReturn "other" "RT123" (sampleWorld pendingShipment)).2).
Proof.
  destruct (processReturn_returns_shipment (sampleWorld pendingShipment) "other" "RT123")
    as (_ & _ & _ & Hsaved & _).
  apply Hsaved.
  - decide_closed.
  - reflexivity.
Defined.

(** ** [markAsDelivered] and the two ways [actualDeliveryDate] is set *)

(** C4.  The save path sets [actualDeliveryDate] to the time of the save
    when the status was modified, is "Delivered" and no date is present,
    and a date once present survives every save; [markAsDelivered] sets
    the status to "Delivered" and [actualDeliveryDate] to the time of the
    call whatever the previous value, replaces the delivery sub-record,
    appends one "delivered" event and saves: on a document that was valid,
    with notes of at most 500 characters, the save resolves with the
    document. *)
Theorem actualDeliveryDate_two_paths :
  (forall w : World,
     validate (this w) = [] ->
     statusModified (this w) = true ->
     shippingStatus (this w) = Some "Delivered" ->
     actualDeliveryDate (this w) = None ->
     (save w).1 = Saved (this (save w).2)
     /\ actualDeliveryDate (this (save w).2) = Some (now w))
  /\ (forall (w : World) (t : Date),
        actualDeliveryDate (this w) = Some t ->
        actualDeliveryDate (this (save w).2) = Some t)
  /\ (forall (w : World) (receivedBy deliveryLocation signature photo notes : string),
        let r := markAsDelivered receivedBy deliveryLocation signature photo notes w in
        shippingStatus (this r.2) = Some "Delivered"
        /\ actualDeliveryDate (this r.2) = Some (now w)
        /\ delivery (this r.2) =
             {| receivedBy := Some (JS.trim receivedBy);
                deliveryLocation := Some (JS.trim deliveryLocation);
                signature := Some signature;
                deliveryPhoto := Some photo;
                deliveryNotes := Some notes |}
        /\ trackingEvents (this r.2) =
             (trackingEvents (this w) ++
                [ {| status := "delivered";
                     description :=
                       JS.trim ("Colis livré" ++
                                (if JS.truthy (JS.Str receivedBy)
                                 then " à " ++ receivedBy else ""));
                     location := emptyLocation; timestamp := clock w (S (ticks w));
                     source := "manual" |} ])%list
        /\ (validate (this w) = [] -> String.length notes <= 500 ->
            r.1 = Saved (this r.2))).
Proof.
  split; [|split].
  - intros w Hvalid Hmod Hstatus Hnone.
    rewrite (save_valid w Hvalid). cbn [fst snd this]. split; [reflexivity|].
    cbn. rewrite preSave_actualDeliveryDate by (left; rewrite Hstatus; discriminate).
    rewrite Hmod, Hstatus, Hnone. reflexivity.
  - exact save_actualDeliveryDate_kept.
  - intros w receivedBy deliveryLocation signature photo notes. cbv zeta.
    rewrite markAsDelivered_run, addTrackingEvent_run, get_delivered.
    cbn [snd this clock ticks JS.truthy String.eqb negb default].
    match goal with |- context [save ?w0] => set (mid := w0) end.
    destruct (save_frame mid) as (Hstatus & Hevents & Hdelivery & _).
    rewrite Hstatus, Hevents, Hdelivery.
    rewrite (save_actualDeliveryDate_kept mid (now w)) by reflexivity.
    repeat split.
    intros Hvalid Hnotes.
    assert (Hmid : validate (this mid) = []).
    { apply validate_nil in Hvalid as (Hc & Htn & _ & Htf & Hev & _ & Hreason).
      apply validate_nil. subst mid. cbn. repeat split; try assumption.
      - apply Forall_app. split; [exact Hev|]. constructor; [|constructor].
        unfold validateTrackingEvent. cbn [status description source].
        rewrite !app_nil, !check_nil. repeat split; try reflexivity.
        exact (required_trim_cons "C"
                 ("olis livré" ++ (if JS.truthy (JS.Str receivedBy)
                                   then " à " ++ receivedBy else "")) eq_refl).
      - apply Nat.leb_le. exact Hnotes. }
    rewrite (save_valid mid Hmid). reflexivity.
Qed.

(** A delivered shipment whose delivery date is already recorded. *)
Lemma actualDeliveryDate_two_paths_witness :
  let d := set_actualDeliveryDate (Some 1700000000000%Z) pendingShipment in
  actualDeliveryDate (this (save (sampleWorld d)).2) = Some 1700000000000%Z
  /\ actualDeliveryDate
       (this (markAsDelivered "Nadia" "Loge" "" "" "" (sampleWorld d)).2)
     = Some (now (sampleWorld d))
  /\ (markAsDelivered "Nadia" "Loge" "" "" "" (sampleWorld d)).1
     = Saved (this (markAsDelivered "Nadia" "Loge" "" "" "" (sampleWorld d)).2)
  /\ actualDeliveryDate
       (this (save (sampleWorld
                      (set_shippingStatus (Some "Delivered") true pendingShipment))).2)
     = Some (now (sampleWorld pendingShipment)).
Proof.
  intros d.
  destruct actualDeliveryDate_two_paths as (Hauto & Hkept & Hmark).
  split; [|split; [|split]].
  - apply Hkept. reflexivity.
  - apply (Hmark (sampleWorld d) "Nadia" "Loge" "" "" "").
  - apply (Hmark (sampleWorld d) "Nadia" "Loge" "" "" "").
    + reflexivity.
    + cbn. lia.
  - apply (Hauto (sampleWorld (set_shippingStatus (Some "Delivered") true pendingShipment)));
      reflexivity.
Defined.

(** ** [shippedAt] is written once *)

Lemma shippedAt_assignShippingStatus (v : JS.Value) (d : Shipping) :
  shippedAt (assignShippingStatus v d) = shippedAt d.
Proof. unfold assignShippingStatus. destruct (Mongoose.castString v); reflexivity. Qed.

Lemma shippedAt_addTrackingEvent token description location timestamp (w : World) :
  shippedAt (this (addTrackingEvent token description location timestamp w).2)
  = shippedAt (this w).
Proof.
  rewrite addTrackingEvent_run. cbn [snd this].
  destruct (JS.truthy _); [rewrite shippedAt_assignShippingStatus|]; reflexivity.
Qed.

Lemma shippedAt_generateTrackingUrl (w : World) :
  shippedAt (this (generateTrackingUrl w).2) = shippedAt (this w).
Proof.
  unfold generateTrackingUrl. run_M. unfold assignTrackingUrl.
  destruct (Mongoose.castString _); reflexivity.
Qed.

Lemma shippedAt_calculateEstimatedDelivery (fuel : nat) (tz : Z) (w : World) :
  shippedAt (this (calculateEstimatedDelivery fuel tz w).2) = shippedAt (this w).
Proof.
  unfold calculateEstimatedDelivery. run_M.
  destruct (shippedAt (this w)) eqn:Hs; [|run_M; exact Hs].
  destruct (estimateLoop _ _ _ _ _ _); run_M; exact Hs.
Qed.

Lemma shippedAt_getLatestTrackingEvent (w : World) :
  shippedAt (this (getLatestTrackingEvent w).2) = shippedAt (this w).
Proof. unfold getLatestTrackingEvent. run_all; reflexivity. Qed.

Lemma perform_shippedAt_kept (c : Call) (w : World) (t : Date) :
  shippedAt (this w) = Some t -> shippedAt (this (perform c w)) = Some t.
Proof.
  intros H. destruct c; cbn [perform].
  - rewrite updateStatus_run. apply save_shippedAt_kept.
    rewrite shippedAt_addTrackingEvent. cbn [this].
    rewrite shippedAt_assignShippingStatus. exact H.
  - rewrite shippedAt_addTrackingEvent. exact H.
  - rewrite shippedAt_generateTrackingUrl. exact H.
  - rewrite shippedAt_calculateEstimatedDelivery. exact H.
  - rewrite shippedAt_getLatestTrackingEvent. exact H.
  - rewrite markAsDelivered_run. apply save_shippedAt_kept.
    rewrite shippedAt_addTrackingEvent. cbn [this].
    unfold assignDelivery. cbn [set_delivery set_actualDeliveryDate shippedAt].
    rewrite shippedAt_assignShippingStatus. exact H.
  - rewrite processReturn_run. apply save_shippedAt_kept.
    rewrite shippedAt_addTrackingEvent. cbn [this].
    rewrite shippedAt_assignShippingStatus. exact H.
  - cbv [write]. cbn [snd this]. rewrite shippedAt_assignShippingStatus. exact H.
  - apply save_shippedAt_kept, H.
Qed.

(** C5.  A save of a valid document whose status was modified and is
    "Shipped", with no ship date yet, sets [shippedAt] to the time of the
    save and resolves; an assignment that moves the status to "Shipped"
    marks it as modified; and once [shippedAt] holds a value, no sequence
    of calls (the methods, saves, assignments to the status) changes it. *)
Theorem shippedAt_set_once :
  (forall w : World,
     validate (this w) = [] ->
     statusModified (this w) = true ->
     shippingStatus (this w) = Some "Shipped" ->
     shippedAt (this w) = None ->
     (save w).1 = Saved (this (save w).2)
     /\ shippedAt (this (save w).2) = Some (now w))
  /\ (forall d : Shipping,
        shippingStatus d <> Some "Shipped" ->
        shippingStatus (assignShippingStatus (JS.Str "Shipped") d) = Some "Shipped"
        /\ statusModified (assignShippingStatus (JS.Str "Shipped") d) = true)
  /\ (forall (calls : list Call) (w : World) (t : Date),
        shippedAt (this w) = Some t ->
        shippedAt (this (performAll calls w)) = Some t).
Proof.
  split; [|split].
  - intros w Hvalid Hmod Hstatus Hnone.
    rewrite (save_valid w Hvalid). cbn [fst snd this]. split; [reflexivity|].
    cbn. rewrite preSave_shippedAt, Hmod, Hstatus, Hnone. reflexivity.
  - intros d Hne. split; [reflexivity|].
    cbn. rewrite bool_decide_eq_false_2 by congruence.
    rewrite orb_true_r. reflexivity.
  - intros calls. induction calls as [|c calls IH]; intros w t H; [exact H|].
    cbn [performAll foldl]. apply IH. apply perform_shippedAt_kept, H.
Qed.

Lemma shippedAt_set_once_witness :
  let shipped := set_shippingStatus (Some "Shipped") true pendingShipment in
  shippedAt (this (save (sampleWorld shipped)).2) = Some (now (sampleWorld shipped))
  /\ statusModified (assignShippingStatus (JS.Str "Shipped") pendingShipment) = true
  /\ shippedAt
       (this (performAll
                [ CallAssignShippingStatus "Pending"; CallSave;
                  CallAssignShippingStatus "Shipped"; CallSave;
                  CallUpdateStatus "Shipped" "Repris" emptyLocation ]
                (save (sampleWorld shipped)).2))
     = Some (now (sampleWorld shipped)).
Proof.
  intros shipped.
  destruct shippedAt_set_once as (Hset & Hmark & Hkept).
  assert (Hfirst : shippedAt (this (save (sampleWorld shipped)).2)
                   = Some (now (sampleWorld shipped))).
  { apply (Hset (sampleWorld shipped)); reflexivity. }
  split; [exact Hfirst|split].
  - apply (Hmark pendingShipment). discriminate.
  - apply Hkept. exact Hfirst.
Defined.

(** ** [updateStatus] *)

Lemma validate_event_status (d : Shipping) (e : TrackingEvent) :
  e ∈ trackingEvents d ->
  status e ∉ trackingEventStatusEnum ->
  "trackingEvents.status" ∈ validate d.
Proof.
  intros Hin Hout. unfold validate.
  rewrite !elem_of_app. do 4 right. left.
  apply list_elem_of_In, in_flat_map. exists e. split; [apply list_elem_of_In, Hin|].
  apply list_elem_of_In. unfold validateTrackingEvent.
  apply elem_of_app; left.
  cbn [Mongoose.enumValidator]. rewrite bool_decide_eq_false_2 by exact Hout.
  rewrite andb_false_r. cbn. left.
Qed.

Lemma trackingEvents_assignShippingStatus (v : JS.Value) (d : Shipping) :
  trackingEvents (assignShippingStatus v d) = trackingEvents d.
Proof. unfold assignShippingStatus. destruct (Mongoose.castString v); reflexivity. Qed.

Lemma trackingEvents_addTrackingEvent token description location timestamp (w : World) :
  trackingEvents (this (addTrackingEvent token description location timestamp w).2) =
    (trackingEvents (this w) ++
       [ {| status := token; description := JS.trim description; location := location;
            timestamp := default (now w) timestamp; source := "manual" |} ])%list.
Proof.
  rewrite addTrackingEvent_run. cbn [snd this].
  destruct (JS.truthy _); [rewrite trackingEvents_assignShippingStatus|]; reflexivity.
Qed.

(** A token outside the event-status enumeration makes the save of
    [updateStatus] reject, whatever the document. *)
Lemma updateStatus_rejects_token (w : World) (newStatus description : string)
    (location : Location) :
  JS.replaceWhitespace (JS.toLowerCase newStatus) ∉ trackingEventStatusEnum ->
  let r := updateStatus newStatus description location w in
  (exists paths : list string,
     r.1 = Rejected (Mongoose.ValidationError paths) /\ "trackingEvents.status" ∈ paths)
  /\ r.2 = (addTrackingEvent (JS.replaceWhitespace (JS.toLowerCase newStatus))
              description location None
              {| this := assignShippingStatus (JS.Str newStatus) (this w);
                 clock := clock w; ticks := ticks w |}).2.
Proof.
  intros Hout. cbv zeta. rewrite updateStatus_run.
  match goal with |- context [save ?w0] => set (mid := w0) end.
  assert (Hin : "trackingEvents.status" ∈ validate (this mid)).
  { apply validate_event_status with
      (e := {| status := JS.replaceWhitespace (JS.toLowerCase newStatus);
               description := JS.trim description; location := location;
               timestamp := default (now {| this := assignShippingStatus (JS.Str newStatus) (this w);
                                            clock := clock w; ticks := ticks w |}) None;
               source := "manual" |}).
    - subst mid. rewrite trackingEvents_addTrackingEvent.
      apply elem_of_app. right. left.
    - exact Hout. }
  rewrite save_invalid by (intros E; rewrite E in Hin; inversion Hin).
  split; [|reflexivity]. eexists. split; [reflexivity|exact Hin].
Qed.

(** C1.  For six of the twelve values of the shipping-status enumeration,
    "Pending", "Processing", "Ready to Ship", "Shipped", "Delivery Failed"
    and "Cancelled", [updateStatus] sets the status and appends the event
    in memory, and its save rejects with a validation error on the status
    of the appended event, whatever the document and the description:
    the derived token is not an event status. *)
Theorem updateStatus_rejects_statuses_of_enumeration
    (w : World) (newStatus description : string) (location : Location) :
  newStatus ∈ [ "Pending"; "Processing"; "Ready to Ship"; "Shipped";
                "Delivery Failed"; "Cancelled" ] ->
  let r := updateStatus newStatus description location w in
  newStatus ∈ shippingStatusEnum
  /\ shippingStatus (this r.2) = Some newStatus
  /\ trackingEvents (this r.2) =
       (trackingEvents (this w) ++
          [ {| status := JS.replaceWhitespace (JS.toLowerCase newStatus);
               description := JS.trim description; location := location;
               timestamp := now w; source := "manual" |} ])%list
  /\ exists paths : list string,
       r.1 = Rejected (Mongoose.ValidationError paths)
       /\ "trackingEvents.status" ∈ paths.
Proof.
  intros Hin. cbv zeta.
  assert (Hfacts : newStatus ∈ shippingStatusEnum
                   /\ (JS.replaceWhitespace (JS.toLowerCase newStatus) ∉ trackingEventStatusEnum)
                   /\ JS.get statusMapping (JS.replaceWhitespace (JS.toLowerCase newStatus))
                      = JS.Undefined).
  { repeat (apply elem_of_cons in Hin as [->|Hin];
            [split; [decide_closed|split; [decide_closed|reflexivity]]|]).
    inversion Hin. }
  destruct Hfacts as (Henum & Htoken & Hget).
  destruct (updateStatus_rejects_token w newStatus description location Htoken)
    as [Hrejected Hworld].
  split; [exact Henum|]. rewrite Hworld.
  split; [|split; [|exact Hrejected]].
  - rewrite addTrackingEvent_run, Hget. reflexivity.
  - rewrite trackingEvents_addTrackingEvent.
    cbn [this]. rewrite trackingEvents_assignShippingStatus. reflexivity.
Qed.

Lemma updateStatus_rejects_statuses_of_enumeration_witness :
  exists paths : list string,
    (updateStatus "Shipped" "Colis remis au transporteur" emptyLocation
       (sampleWorld pendingShipment)).1
    = Rejected (Mongoose.ValidationError paths)
    /\ "trackingEvents.status" ∈ paths.
Proof.
  apply (updateStatus_rejects_statuses_of_enumeration (sampleWorld pendingShipment)
           "Shipped" "Colis remis au transporteur" emptyLocation).
  decide_closed.
Defined.

(** The same call evaluated: the document and the description are valid,
    the status "Shipped" is in the enumeration, and the save rejects. *)
Example updateStatus_Shipped_rejected :
  validate pendingShipment = []
  /\ (updateStatus "Shipped" "Colis remis au transporteur" emptyLocation
        (sampleWorld pendingShipment)).1
     = Rejected (Mongoose.ValidationError ["trackingEvents.status"]).
Proof. split; reflexivity. Qed.

(** A status outside the enumeration that is accepted: the token
    "delivered" is a key of the status mapping, which rewrites the status
    to "Delivered" before the save. *)
Example updateStatus_lowercase_accepted :
  ("delivered" ∉ shippingStatusEnum)
  /\ exists d : Shipping,
       (updateStatus "delivered" "Colis remis" emptyLocation
          (sampleWorld pendingShipment)).1 = Saved d
       /\ shippingStatus d = Some "Delivered".
Proof.
  split; [decide_closed|]. eexists. split; reflexivity.
Qed.

(** The other six statuses are saved, on a valid document and with a
    description that is not blank. *)
Lemma updateStatus_saves_mapped_statuses
    (w : World) (newStatus text : string) (location : Location) :
  newStatus ∈ [ "In Transit"; "Out for Delivery"; "Delivered"; "Returned";
                "Lost"; "Damaged" ] ->
  validate (this w) = [] ->
  JS.trim text <> "" ->
  let r := updateStatus newStatus text location w in
  r.1 = Saved (this r.2) /\ shippingStatus (this r.2) = Some newStatus.
Proof.
  intros Hin Hvalid Hdesc. cbv zeta. rewrite updateStatus_run.
  match goal with |- context [save ?w0] => set (mid := w0) end.
  assert (Hfacts : Mongoose.enumValidator shippingStatusEnum (Some newStatus) = true
                   /\ Mongoose.enumValidator trackingEventStatusEnum
                        (Some (JS.replaceWhitespace (JS.toLowerCase newStatus))) = true
                   /\ JS.replaceWhitespace (JS.toLowerCase newStatus) <> ""
                   /\ JS.get statusMapping (JS.replaceWhitespace (JS.toLowerCase newStatus))
                      = JS.Str newStatus
                   /\ newStatus <> "").
  { repeat (apply elem_of_cons in Hin as [->|Hin];
            [repeat split; solve [reflexivity | discriminate]|]).
    inversion Hin. }
  destruct Hfacts as (Hstatus & Htoken & Htoken' & Hget & Hne).
  assert (Hmid : validate (this mid) = [] /\ shippingStatus (this mid) = Some newStatus).
  { apply validate_nil in Hvalid as (Hc & Htn & _ & Htf & Hev & Hnotes & Hreason).
    subst mid. rewrite validate_nil, addTrackingEvent_run, Hget.
    cbn [JS.truthy]. rewrite (proj2 (String.eqb_neq _ _) Hne).
    cbn. repeat split; try assumption.
    apply Forall_app. split; [exact Hev|]. constructor; [|constructor].
    unfold validateTrackingEvent. cbn [status description source].
    rewrite !app_nil, !check_nil. split; [|split].
    - rewrite Htoken. cbn. rewrite (proj2 (String.eqb_neq _ _) Htoken'). reflexivity.
    - cbn. apply negb_true_iff, String.eqb_neq, Hdesc.
    - reflexivity. }
  destruct Hmid as [Hmid Hnew].
  rewrite (save_valid mid Hmid). cbn [fst snd this]. split; [reflexivity|].
  destruct (preSave_frame mid) as (Hs & _). cbn. rewrite Hs. exact Hnew.
Qed.

(** ** [calculateEstimatedDelivery] *)

Lemma msPerDay_pos : (0 < msPerDay)%Z.
Proof. reflexivity. Qed.

Section Estimate.

Variables (tz : Z) (sat : bool).

Lemma getDay_range (t : Date) : (0 <= getDay tz t < 7)%Z.
Proof. unfold getDay. apply Z.mod_pos_bound. reflexivity. Qed.

Lemma getDay_nextDay (t : Date) :
  getDay tz (nextDay t) = ((getDay tz t + 1) mod 7)%Z.
Proof.
  unfold getDay, nextDay.
  replace (t + msPerDay + tz)%Z with ((t + tz) + 1 * msPerDay)%Z by ring.
  rewrite Z.div_add by (pose proof msPerDay_pos; lia).
  rewrite Z.add_mod_idemp_l by discriminate.
  f_equal. ring.
Qed.

Lemma estimateLoop_step (fuel : nat) (maxDays : Z) (d : Date) (added : Z) :
  estimateLoop (S fuel) tz sat maxDays d added =
    if (added <? maxDays)%Z
    then if businessDay tz sat (nextDay d)
         then estimateLoop fuel tz sat maxDays (nextDay d) (added + 1)
         else estimateLoop fuel tz sat maxDays (nextDay d) added
    else Returns d.
Proof. reflexivity. Qed.

Lemma estimateLoop_done (fuel : nat) (maxDays : Z) (d : Date) (added : Z) :
  (maxDays <= added)%Z -> estimateLoop fuel tz sat maxDays d added = Returns d.
Proof.
  intros H. destruct fuel; cbn [estimateLoop];
    rewrite (proj2 (Z.ltb_ge added maxDays) H); reflexivity.
Qed.

(** Of three consecutive days, one is counted. *)
Lemma third_day_counted (t : Date) :
  businessDay tz sat (nextDay t) = false ->
  businessDay tz sat (nextDay (nextDay t)) = false ->
  businessDay tz sat (nextDay (nextDay (nextDay t))) = true.
Proof.
  unfold businessDay. rewrite !getDay_nextDay.
  pose proof (getDay_range t) as Hr.
  assert (Hcases : (getDay tz t = 0 \/ getDay tz t = 1 \/ getDay tz t = 2 \/ getDay tz t = 3
                    \/ getDay tz t = 4 \/ getDay tz t = 5 \/ getDay tz t = 6)%Z) by lia.
  destruct sat;
    destruct Hcases as [->|[->|[->|[->|[->|[->| ->]]]]]]; vm_compute; congruence.
Qed.

Lemma reachedAfter_counted (n : nat) (t r : Date) :
  businessDay tz sat (nextDay t) = true ->
  reachedAfter tz sat n (nextDay t) r ->
  reachedAfter tz sat (S n) t r.
Proof.
  intros Hb (k & Hr & Hcount & Hmin). exists (S k). split; [|split].
  - rewrite Hr. unfold nextDay. lia.
  - cbn [countedDays]. rewrite Hb, Hcount. reflexivity.
  - intros j Hj. destruct j as [|j]; cbn [countedDays]; [lia|].
    rewrite Hb. specialize (Hmin j). lia.
Qed.

Lemma reachedAfter_skipped (n : nat) (t r : Date) :
  businessDay tz sat (nextDay t) = false ->
  0 < n ->
  reachedAfter tz sat n (nextDay t) r ->
  reachedAfter tz sat n t r.
Proof.
  intros Hb Hn (k & Hr & Hcount & Hmin). exists (S k). split; [|split].
  - rewrite Hr. unfold nextDay. lia.
  - cbn [countedDays]. rewrite Hb, Hcount. reflexivity.
  - intros j Hj. destruct j as [|j]; cbn [countedDays]; [lia|].
    rewrite Hb. specialize (Hmin j). lia.
Qed.

(** With three iterations of fuel for each day to count, the loop ends on
    the first date at which the days are counted. *)
Lemma estimateLoop_reaches (maxDays : Z) (n : nat) :
  forall (fuel : nat) (d : Date) (added : Z),
    Z.to_nat (maxDays - added) = n ->
    3 * n <= fuel ->
    exists r : Date,
      estimateLoop fuel tz sat maxDays d added = Returns r
      /\ reachedAfter tz sat n d r.
Proof.
  induction n as [|n IH]; intros fuel d added Hn Hfuel.
  - exists d. split; [apply estimateLoop_done; lia|].
    exists 0. split; [lia|]. split; [reflexivity|]. intros j Hj. lia.
  - assert (Hlt : (added <? maxDays)%Z = true) by (apply Z.ltb_lt; lia).
    assert (Hnext : Z.to_nat (maxDays - (added + 1)) = n) by lia.
    destruct fuel as [|[|[|fuel]]]; try lia.
    rewrite estimateLoop_step, Hlt.
    destruct (businessDay tz sat (nextDay d)) eqn:E1.
    { destruct (IH (S (S fuel)) (nextDay d) (added + 1)%Z Hnext ltac:(lia)) as (r & Hr & Hreach).
      exists r. split; [exact Hr|].
      apply (reachedAfter_counted _ _ _ E1 Hreach). }
    rewrite estimateLoop_step, Hlt.
    destruct (businessDay tz sat (nextDay (nextDay d))) eqn:E2.
    { destruct (IH (S fuel) (nextDay (nextDay d)) (added + 1)%Z Hnext ltac:(lia))
        as (r & Hr & Hreach).
      exists r. split; [exact Hr|].
      apply reachedAfter_skipped; [exact E1|lia|].
      apply (reachedAfter_counted _ _ _ E2 Hreach). }
    rewrite estimateLoop_step, Hlt.
    pose proof (third_day_counted d E1 E2) as E3. rewrite E3.
    destruct (IH fuel (nextDay (nextDay (nextDay d))) (added + 1)%Z Hnext ltac:(lia))
      as (r & Hr & Hreach).
    exists r. split; [exact Hr|].
    apply reachedAfter_skipped; [exact E1|lia|].
    apply reachedAfter_skipped; [exact E2|lia|].
    apply (reachedAfter_counted _ _ _ E3 Hreach).
Qed.

(** The date at which [n] days are counted is unique. *)
Lemma reachedAfter_unique (n : nat) (t r r' : Date) :
  reachedAfter tz sat n t r -> reachedAfter tz sat n t r' -> r = r'.
Proof.
  intros (k & -> & Hk & Hmin) (k' & -> & Hk' & Hmin').
  destruct (Nat.lt_trichotomy k k') as [H|[->|H]]; [|reflexivity|].
  - specialize (Hmin' k H). lia.
  - specialize (Hmin k' H). lia.
Qed.

End Estimate.

Lemma calculateEstimatedDelivery_null (fuel : nat) (tz : Z) (w : World) :
  shippedAt (this w) = None ->
  calculateEstimatedDelivery fuel tz w = (Returns None, w).
Proof.
  intros H. unfold calculateEstimatedDelivery. run_M. rewrite H. reflexivity.
Qed.

(** With a ship date the call returns a date, whatever is stored under
    [deliveryTimeframe]. *)
Lemma calculateEstimatedDelivery_reaches_nested (fuel : nat) (tz : Z) (w : World)
    (shipped : Date) :
  shippedAt (this w) = Some shipped ->
  3 * Z.to_nat (JS.numberOr (max (getDeliveryTimeframe (this w))) 7) <= fuel ->
  exists r : Date,
    calculateEstimatedDelivery fuel tz w =
      (Returns (Some r),
       {| this := set_estimatedDeliveryDate (Some r) (this w);
          clock := clock w; ticks := ticks w |})
    /\ reachedAfter tz (saturdayDelivery (this w))
         (Z.to_nat (JS.numberOr (max (getDeliveryTimeframe (this w))) 7)) shipped r.
Proof.
  intros Hs Hfuel.
  destruct (estimateLoop_reaches tz (saturdayDelivery (this w))
              (JS.numberOr (max (getDeliveryTimeframe (this w))) 7)
              (Z.to_nat (JS.numberOr (max (getDeliveryTimeframe (this w))) 7))
              fuel shipped 0%Z ltac:(f_equal; lia) Hfuel) as (r & Hr & Hreach).
  exists r. split; [|exact Hreach].
  unfold calculateEstimatedDelivery. run_M. rewrite Hs, Hr. reflexivity.
Qed.

Lemma calculateEstimatedDelivery_reaches (fuel : nat) (tz : Z) (w : World)
    (shipped : Date) (timeframe : DeliveryTimeframe) :
  shippedAt (this w) = Some shipped ->
  deliveryTimeframe (this w) = Some timeframe ->
  3 * Z.to_nat (JS.numberOr (max timeframe) 7) <= fuel ->
  exists r : Date,
    calculateEstimatedDelivery fuel tz w =
      (Returns (Some r),
       {| this := set_estimatedDeliveryDate (Some r) (this w);
          clock := clock w; ticks := ticks w |})
    /\ reachedAfter tz (saturdayDelivery (this w))
         (Z.to_nat (JS.numberOr (max timeframe) 7)) shipped r.
Proof.
  intros Hs Htf Hfuel.
  assert (Hget : getDeliveryTimeframe (this w) = timeframe)
    by (unfold getDeliveryTimeframe; rewrite Htf; reflexivity).
  pose proof (calculateEstimatedDelivery_reaches_nested fuel tz w shipped Hs) as H.
  rewrite Hget in H. exact (H Hfuel).
Qed.

(** Nothing stored under [deliveryTimeframe]: seven days are counted. *)
Lemma calculateEstimatedDelivery_reaches_default (fuel : nat) (tz : Z) (w : World)
    (shipped : Date) :
  shippedAt (this w) = Some shipped ->
  deliveryTimeframe (this w) = None ->
  21 <= fuel ->
  exists r : Date,
    calculateEstimatedDelivery fuel tz w =
      (Returns (Some r),
       {| this := set_estimatedDeliveryDate (Some r) (this w);
          clock := clock w; ticks := ticks w |})
    /\ reachedAfter tz (saturdayDelivery (this w)) 7 shipped r.
Proof.
  intros Hs Htf Hfuel.
  assert (Hget : getDeliveryTimeframe (this w) = {| min := None; max := None |})
    by (unfold getDeliveryTimeframe; rewrite Htf; reflexivity).
  pose proof (calculateEstimatedDelivery_reaches_nested fuel tz w shipped Hs) as H.
  rewrite Hget in H. apply H. cbn. lia.
Qed.

(** A date at which at least one day has been counted is after the start. *)
Lemma reachedAfter_later (tz : Z) (sat : bool) (n : nat) (t r : Date) :
  0 < n -> reachedAfter tz sat n t r -> (t < r)%Z.
Proof.
  intros Hn (k & -> & Hcount & _).
  destruct k as [|k]; [cbn in Hcount; lia|].
  pose proof msPerDay_pos. nia.
Qed.

(** Any two amounts of fuel that suffice give the same result. *)
Lemma calculateEstimatedDelivery_fuel_irrelevant (fuel fuel' : nat) (tz : Z) (w : World)
    (shipped : Date) (timeframe : DeliveryTimeframe) :
  shippedAt (this w) = Some shipped ->
  deliveryTimeframe (this w) = Some timeframe ->
  3 * Z.to_nat (JS.numberOr (max timeframe) 7) <= fuel ->
  3 * Z.to_nat (JS.numberOr (max timeframe) 7) <= fuel' ->
  calculateEstimatedDelivery fuel tz w = calculateEstimatedDelivery fuel' tz w.
Proof.
  intros Hs Htf Hfuel Hfuel'.
  destruct (calculateEstimatedDelivery_reaches fuel tz w shipped timeframe Hs Htf Hfuel)
    as (r & -> & Hreach).
  destruct (calculateEstimatedDelivery_reaches fuel' tz w shipped timeframe Hs Htf Hfuel')
    as (r' & -> & Hreach').
  rewrite (reachedAfter_unique _ _ _ _ _ _ Hreach Hreach'). reflexivity.
Qed.

Lemma businessDay_nextDay (tz : Z) (sat : bool) (d : Date) (g g' : Z) (b : bool) :
  getDay tz d = g ->
  ((g + 1) mod 7)%Z = g' ->
  negb (g' =? 0)%Z && (negb (g' =? 6)%Z || sat) = b ->
  businessDay tz sat (nextDay d) = b /\ getDay tz (nextDay d) = g'.
Proof.
  intros <- <- <-. unfold businessDay. rewrite getDay_nextDay. split; reflexivity.
Qed.

(** One iteration of the loop from a date whose day of the week is known. *)
Ltac loop_day Hg :=
  match type of Hg with
  | getDay ?tz ?d = ?g =>
      let g' := eval vm_compute in ((g + 1) mod 7)%Z in
      let b := eval vm_compute in (negb (g' =? 0)%Z && (negb (g' =? 6)%Z || false)) in
      let Hb := fresh "Hb" in
      let Hg' := fresh "Hg" in
      destruct (businessDay_nextDay tz false d g g' b Hg eq_refl eq_refl) as [Hb Hg'];
      rewrite estimateLoop_step, Hb; clear Hb
  end.

Lemma estimateLoop_from_monday (fuel : nat) (tz : Z) (shipped : Date) :
  getDay tz shipped = 1%Z ->
  7 <= fuel ->
  estimateLoop fuel tz false 5 shipped 0 = Returns (shipped + 7 * msPerDay)%Z.
Proof.
  intros Hg Hfuel.
  do 7 (destruct fuel as [|fuel]; [lia|]).
  loop_day Hg. loop_day Hg0. loop_day Hg1. loop_day Hg2.
  loop_day Hg3. loop_day Hg4. loop_day Hg5.
  cbn [Z.ltb Z.compare Pos.compare Pos.compare_cont Z.add Pos.add Pos.succ].
  rewrite estimateLoop_done by lia.
  unfold nextDay. f_equal. lia.
Qed.

(** C3.  [calculateEstimatedDelivery] returns [null] without a ship
    date.  With a ship date it returns a date whether or not a time-frame
    is stored: the test [!this.deliveryTimeframe] reads a nested path,
    whose value is an object, and never succeeds; with nothing stored
    under [deliveryTimeframe], given fuel for the loop, the call counts
    seven days, writes the date reached into [estimatedDeliveryDate] and
    returns it, a date strictly after the ship date and not [null].  With
    a time-frame stored it returns the first date, one calendar day at a
    time after the ship date, at which the number of counted days (never a
    Sunday, a Saturday only with Saturday delivery) reaches [max], or 7
    when [max] is absent or 0, and writes it likewise; shipped on a Monday
    with [max = 5] and no Saturday delivery, the date is seven calendar
    days after the ship date. *)
Theorem calculateEstimatedDelivery_counts_days (fuel : nat) (tz : Z) (w : World) :
  (shippedAt (this w) = None ->
   calculateEstimatedDelivery fuel tz w = (Returns None, w))
  /\ (forall shipped : Date,
        shippedAt (this w) = Some shipped ->
        deliveryTimeframe (this w) = None ->
        21 <= fuel ->
        exists r : Date,
          (calculateEstimatedDelivery fuel tz w).1 = Returns (Some r)
          /\ estimatedDeliveryDate (this (calculateEstimatedDelivery fuel tz w).2) = Some r
          /\ reachedAfter tz (saturdayDelivery (this w)) 7 shipped r
          /\ (shipped < r)%Z)
  /\ (forall (shipped : Date) (timeframe : DeliveryTimeframe),
        shippedAt (this w) = Some shipped ->
        deliveryTimeframe (this w) = Some timeframe ->
        let days := match max timeframe with
                    | Some m => if (m =? 0)%Z then 7%Z else m
                    | None => 7%Z
                    end in
        3 * Z.to_nat days <= fuel ->
        exists r : Date,
          (calculateEstimatedDelivery fuel tz w).1 = Returns (Some r)
          /\ estimatedDeliveryDate (this (calculateEstimatedDelivery fuel tz w).2) = Some r
          /\ reachedAfter tz (saturdayDelivery (this w)) (Z.to_nat days) shipped r)
  /\ (forall (shipped : Date) (timeframe : DeliveryTimeframe),
        shippedAt (this w) = Some shipped ->
        deliveryTimeframe (this w) = Some timeframe ->
        max timeframe = Some 5%Z ->
        saturdayDelivery (this w) = false ->
        getDay tz shipped = 1%Z ->
        7 <= fuel ->
        (calculateEstimatedDelivery fuel tz w).1
          = Returns (Some (shipped + 7 * msPerDay)%Z)
        /\ estimatedDeliveryDate (this (calculateEstimatedDelivery fuel tz w).2)
           = Some (shipped + 7 * msPerDay)%Z).
Proof.
  split; [apply calculateEstimatedDelivery_null|split; [|split]].
  - intros shipped Hs Htf Hfuel.
    destruct (calculateEstimatedDelivery_reaches_default fuel tz w shipped Hs Htf Hfuel)
      as (r & Hrun & Hreach).
    exists r. rewrite Hrun. split; [reflexivity|split; [reflexivity|split]].
    + exact Hreach.
    + apply (reachedAfter_later _ _ 7 _ _ ltac:(lia) Hreach).
  - intros shipped timeframe Hs Htf days Hfuel.
    destruct (calculateEstimatedDelivery_reaches fuel tz w shipped timeframe Hs Htf Hfuel)
      as (r & Hrun & Hreach).
    exists r. rewrite Hrun. repeat split. exact Hreach.
  - intros shipped timeframe Hs Htf Hmax Hsat Hg Hfuel.
    assert (Hget : getDeliveryTimeframe (this w) = timeframe)
      by (unfold getDeliveryTimeframe; rewrite Htf; reflexivity).
    unfold calculateEstimatedDelivery. run_M. rewrite Hs, Hget, Hmax, Hsat.
    cbn [JS.numberOr Z.eqb]. rewrite (estimateLoop_from_monday fuel tz shipped Hg Hfuel).
    run_M. split; reflexivity.
Qed.

Lemma calculateEstimatedDelivery_counts_days_witness :
  (calculateEstimatedDelivery 21 0 (sampleWorld mondayShipment)).1
  = Returns (Some (1704067200000 + 7 * msPerDay)%Z)
  /\ (exists r : Date,
        (calculateEstimatedDelivery 21 0 (sampleWorld mondayShipment)).1 = Returns (Some r)
        /\ reachedAfter 0 false 5 1704067200000%Z r)
  /\ (exists r : Date,
        (calculateEstimatedDelivery 21 0 (sampleWorld noTimeframeShipment)).1
        = Returns (Some r)
        /\ reachedAfter 0 false 7 1704067200000%Z r
        /\ (1704067200000 < r)%Z)
  /\ (calculateEstimatedDelivery 21 0
        (sampleWorld (set_shippedAt None mondayShipment))).1 = Returns None.
Proof.
  destruct (calculateEstimatedDelivery_counts_days 21 0 (sampleWorld mondayShipment))
    as (_ & _ & Hgeneral & Hmonday).
  destruct (calculateEstimatedDelivery_counts_days 21 0 (sampleWorld noTimeframeShipment))
    as (_ & Hdefault & _).
  destruct (calculateEstimatedDelivery_counts_days 21 0
              (sampleWorld (set_shippedAt None mondayShipment))) as (Hnull & _).
  split; [|split; [|split]].
  - apply (Hmonday 1704067200000%Z {| min := Some 2%Z; max := Some 5%Z |});
      first [reflexivity | lia].
  - destruct (Hgeneral 1704067200000%Z {| min := Some 2%Z; max := Some 5%Z |}
                eq_refl eq_refl ltac:(cbn; lia)) as (r & Hr & _ & Hreach).
    exists r. split; [exact Hr|exact Hreach].
  - destruct (Hdefault 1704067200000%Z eq_refl eq_refl ltac:(lia))
      as (r & Hr & _ & Hreach & Hlt).
    exists r. split; [exact Hr|split; [exact Hreach|exact Hlt]].
  - rewrite Hnull by reflexivity. reflexivity.
Defined.

(** A shipment sent on Monday 2024-01-01 with nothing stored under
    [deliveryTimeframe]: the call returns Wednesday 2024-01-10, nine
    calendar days later, and writes it; it does not return [null]. *)
Example calculateEstimatedDelivery_no_timeframe_stored :
  calculateEstimatedDelivery 21 0 (sampleWorld noTimeframeShipment)
  = (Returns (Some (1704067200000 + 9 * msPerDay)%Z),
     sampleWorld (set_estimatedDeliveryDate (Some (1704067200000 + 9 * msPerDay)%Z)
                    noTimeframeShipment)).
Proof. reflexivity. Qed.

(** With [max = 0] the call counts seven days: from Monday 2024-01-01 the
    result is nine calendar days later, and it is not the date at which
    [max] days, that is none, have been counted. *)
Lemma calculateEstimatedDelivery_max_zero_counterexample :
  (calculateEstimatedDelivery 21 0 (sampleWorld sameDayShipment)).1
  = Returns (Some (1704067200000 + 9 * msPerDay)%Z)
  /\ ~ reachedAfter 0 false
         (Z.to_nat (daysToCount_spec {| min := Some 0%Z; max := Some 0%Z |}))
         1704067200000%Z (1704067200000 + 9 * msPerDay)%Z.
Proof.
  split; [reflexivity|].
  intros (k & Hr & _ & Hmin).
  destruct k as [|k].
  - vm_compute in Hr. discriminate.
  - specialize (Hmin 0 ltac:(lia)). cbn in Hmin. lia.
Qed.

(** C10.  With a ship date and a time-frame whose [max] is 0, the call
    counts seven days, not none: given fuel, it returns the first date at
    which seven days are counted, and that date is strictly after the ship
    date. *)
Theorem calculateEstimatedDelivery_zero_max (fuel : nat) (tz : Z) (w : World)
    (shipped : Date) (timeframe : DeliveryTimeframe) :
  shippedAt (this w) = Some shipped ->
  deliveryTimeframe (this w) = Some timeframe ->
  max timeframe = Some 0%Z ->
  21 <= fuel ->
  exists r : Date,
    (calculateEstimatedDelivery fuel tz w).1 = Returns (Some r)
    /\ estimatedDeliveryDate (this (calculateEstimatedDelivery fuel tz w).2) = Some r
    /\ reachedAfter tz (saturdayDelivery (this w)) 7 shipped r
    /\ (shipped < r)%Z.
Proof.
  intros Hs Htf Hmax Hfuel.
  destruct (calculateEstimatedDelivery_reaches fuel tz w shipped timeframe Hs Htf)
    as (r & Hrun & Hreach).
  { rewrite Hmax. cbn. lia. }
  rewrite Hmax in Hreach. change (Z.to_nat (JS.numberOr (Some 0%Z) 7)) with 7 in Hreach.
  exists r. rewrite Hrun. repeat split; [exact Hreach|].
  destruct Hreach as (k & -> & Hcount & _).
  destruct k as [|k]; [discriminate|].
  pose proof msPerDay_pos. nia.
Qed.

Lemma calculateEstimatedDelivery_zero_max_witness :
  exists r : Date,
    (calculateEstimatedDelivery 21 0 (sampleWorld sameDayShipment)).1 = Returns (Some r)
    /\ (1704067200000 < r)%Z.
Proof.
  destruct (calculateEstimatedDelivery_zero_max 21 0 (sampleWorld sameDayShipment)
              1704067200000%Z {| min := Some 0%Z; max := Some 0%Z |}
              eq_refl eq_refl eq_refl ltac:(lia)) as (r & Hr & _ & _ & Hlt).
  exists r. split; [exact Hr|exact Hlt].
Defined.

(** ** [getLatestTrackingEvent] *)

Section SortByTimestamp.

Lemma insert_Permutation (x : TrackingEvent) (l : list TrackingEvent) :
  Permutation (JS.insert byTimestampDesc x l) (x :: l).
Proof.
  induction l as [|y l IH]; cbn [JS.insert]; [reflexivity|].
  destruct (byTimestampDesc x y <=? 0)%Z; [reflexivity|].
  rewrite IH. apply perm_swap.
Qed.

Lemma sort_Permutation (l : list TrackingEvent) :
  Permutation (JS.sort byTimestampDesc l) l.
Proof.
  induction l as [|x l IH]; [reflexivity|].
  unfold JS.sort in *. cbn [foldr]. rewrite insert_Permutation, IH. reflexivity.
Qed.

Lemma insert_sorted (x : TrackingEvent) (l : list TrackingEvent) :
  timestampDescending l -> timestampDescending (JS.insert byTimestampDesc x l).
Proof.
  unfold timestampDescending. induction 1 as [|y l Hl IH Hy]; cbn [JS.insert].
  - constructor; constructor.
  - destruct (byTimestampDesc x y <=? 0)%Z eqn:E.
    + apply Z.leb_le in E. unfold byTimestampDesc in E.
      constructor; [constructor; assumption|].
      constructor; [lia|].
      apply Forall_forall. intros z Hz.
      pose proof (proj1 (Forall_forall _ _) Hy z Hz) as Hyz.
      cbn in Hyz. lia.
    + apply Z.leb_gt in E. unfold byTimestampDesc in E.
      constructor; [exact IH|].
      apply Forall_forall. intros z Hz.
      rewrite (insert_Permutation x l) in Hz.
      apply elem_of_cons in Hz as [->|Hz].
      * lia.
      * exact (proj1 (Forall_forall _ _) Hy z Hz).
Qed.

Lemma sort_sorted (l : list TrackingEvent) :
  timestampDescending (JS.sort byTimestampDesc l).
Proof.
  induction l as [|x l IH]; [constructor|].
  unfold JS.sort in *. cbn [foldr]. apply insert_sorted, IH.
Qed.

End SortByTimestamp.

Lemma set_trackingEvents_same (d : Shipping) :
  set_trackingEvents (trackingEvents d) d = d.
Proof. destruct d; reflexivity. Qed.

(** C7.  [getLatestTrackingEvent] returns [null] on an empty list and
    changes nothing; otherwise it returns an event of the list whose
    timestamp is maximal; the stored list becomes a rearrangement of the
    same events in timestamp-descending order, and nothing else in the
    document changes. *)
Theorem getLatestTrackingEvent_sorts_in_place (w : World) :
  let r := getLatestTrackingEvent w in
  (trackingEvents (this w) = [] -> r = (None, w))
  /\ (trackingEvents (this w) <> [] ->
      exists e : TrackingEvent,
        r.1 = Some e
        /\ e ∈ trackingEvents (this w)
        /\ forall e' : TrackingEvent,
             e' ∈ trackingEvents (this w) -> (timestamp e' <= timestamp e)%Z)
  /\ Permutation (trackingEvents (this r.2)) (trackingEvents (this w))
  /\ timestampDescending (trackingEvents (this r.2))
  /\ this r.2 = set_trackingEvents (trackingEvents (this r.2)) (this w)
  /\ clock r.2 = clock w /\ ticks r.2 = ticks w.
Proof.
  cbv zeta. unfold getLatestTrackingEvent. run_M.
  destruct (trackingEvents (this w)) as [|x l] eqn:E.
  - cbn [length Nat.eqb]. run_M. rewrite E.
    split; [reflexivity|]. split; [congruence|].
    split; [reflexivity|]. split; [constructor|].
    split; [|split; reflexivity].
    rewrite <- E. symmetry. apply set_trackingEvents_same.
  - cbn [length Nat.eqb]. run_M. cbn [set_trackingEvents trackingEvents].
    pose proof (sort_Permutation (x :: l)) as Hperm.
    pose proof (sort_sorted (x :: l)) as Hsorted.
    split; [discriminate|]. split; [|repeat split; assumption].
    intros _. destruct (JS.sort byTimestampDesc (x :: l)) as [|e s] eqn:Es.
    + apply Permutation_nil in Hperm. discriminate.
    + exists e. split; [reflexivity|]. split.
      * rewrite <- Hperm. left.
      * intros e' He'. rewrite <- Hperm in He'.
        apply elem_of_cons in He' as [->|He']; [lia|].
        inversion Hsorted as [|? ? _ Hall]; subst.
        exact (proj1 (Forall_forall _ _) Hall e' He').
Qed.

Lemma getLatestTrackingEvent_sorts_in_place_witness :
  let e1 := {| status := "picked_up"; description := "Pris en charge";
               location := emptyLocation; timestamp := 1704070800000%Z;
               source := "carrier" |} in
  let e2 := {| status := "in_transit"; description := "En cours d'acheminement";
               location := emptyLocation; timestamp := 1704157200000%Z;
               source := "carrier" |} in
  (getLatestTrackingEvent (sampleWorld pendingShipment)).1 = None
  /\ exists e : TrackingEvent,
       (getLatestTrackingEvent
          (sampleWorld (set_trackingEvents [e1; e2] pendingShipment))).1 = Some e
       /\ forall e' : TrackingEvent,
            e' ∈ [e1; e2] -> (timestamp e' <= timestamp e)%Z.
Proof.
  intros e1 e2. split.
  - destruct (getLatestTrackingEvent_sorts_in_place (sampleWorld pendingShipment))
      as (Hempty & _).
    rewrite Hempty by reflexivity. reflexivity.
  - destruct (getLatestTrackingEvent_sorts_in_place
                (sampleWorld (set_trackingEvents [e1; e2] pendingShipment)))
      as (_ & Hlatest & _).
    destruct (Hlatest ltac:(discriminate)) as (e & He & _ & Hmax).
    exists e. split; [exact He|exact Hmax].
Defined.

(** ** [getShippingStats] *)

(** The accumulators of [$group] after a run over [docs], against counts
    and sums over the list. *)
Lemma foldl_accumulate (docs : list Shipping) :
  forall g : Group,
    let g' := foldl accumulate g docs in
    g_total g' = g_total g + length docs
    /\ g_delivered g' =
         g_delivered g + length (filter (fun d => shippingStatus d = Some "Delivered") docs)
    /\ g_inTransit g' =
         g_inTransit g
         + length (filter (fun d => shippingStatus d ∈
                             [Some "Shipped"; Some "In Transit"; Some "Out for Delivery"]) docs)
    /\ g_failed g' =
         g_failed g + length (filter (fun d => shippingStatus d = Some "Delivery Failed") docs)
    /\ g_carriers g' = (g_carriers g ++ map carrier docs)%list
    /\ g_count g' = g_count g + length (omap deliveryDays docs)
    /\ (g_sum g' == g_sum g + foldr Qplus 0 (omap deliveryDays docs))%Q.
Proof.
  induction docs as [|d docs IH]; intros g; cbn [foldl].
  - cbn. rewrite !Nat.add_0_r, app_nil_r. repeat split. ring.
  - destruct (IH (accumulate g d)) as (H1 & H2 & H3 & H4 & H5 & H6 & H7).
    cbv zeta. rewrite H1, H2, H3, H4, H5, H6, H7. clear IH H1 H2 H3 H4 H5 H6 H7.
    cbn [accumulate g_total g_delivered g_inTransit g_failed g_carriers g_count g_sum
         length map omap list_omap].
    rewrite !filter_cons.
    repeat split.
    + lia.
    + case_decide as H;
        [rewrite (bool_decide_eq_true_2 _ H)|rewrite (bool_decide_eq_false_2 _ H)];
        cbn [cond length]; lia.
    + case_decide as H;
        [rewrite (bool_decide_eq_true_2 _ H)|rewrite (bool_decide_eq_false_2 _ H)];
        cbn [cond length]; lia.
    + case_decide as H;
        [rewrite (bool_decide_eq_true_2 _ H)|rewrite (bool_decide_eq_false_2 _ H)];
        cbn [cond length]; lia.
    + rewrite <- app_assoc. reflexivity.
    + destruct (deliveryDays d); cbn [length]; lia.
    + destruct (deliveryDays d); cbn [foldr]; ring.
Qed.

Lemma isHexDigit_hexDigits (c : ascii) : isHexDigit c = bool_decide (c ∈ hexDigits).
Proof.
  destruct c as [[] [] [] [] [] [] [] []]; vm_compute; reflexivity.
Qed.

Lemma newObjectId_objectIdString (s : string) :
  objectIdString s -> newObjectId s = Some (JS.toLowerCase s).
Proof.
  intros [Hlen Hhex]. unfold newObjectId.
  rewrite Hlen. cbn [Nat.eqb andb].
  assert (Hall : forallb isHexDigit (list_ascii_of_string s) = true).
  { induction Hhex as [|c l Hc _ IH]; [reflexivity|].
    cbn [forallb]. rewrite IH, isHexDigit_hexDigits, (bool_decide_eq_true_2 _ Hc).
    reflexivity. }
  rewrite Hall. reflexivity.
Qed.

(** With an accepted [sellerId] the filter is built; it bears on the
    seller only for a non-empty [sellerId]. *)
Lemma buildMatchStage_accepted (sellerId : option string) (startDate endDate : option Date) :
  sellerIdAccepted sellerId ->
  exists m : MatchStage,
    buildMatchStage sellerId startDate endDate = Some m
    /\ match_sellerID m =
         match sellerId with
         | Some s => if bool_decide (s = "") then None else Some (JS.toLowerCase s)
         | None => None
         end
    /\ match_shippedAt m =
         if bool_decide (is_Some startDate) || bool_decide (is_Some endDate)
         then Some {| gte := startDate; lte := endDate |}
         else None.
Proof.
  intros Hacc. unfold buildMatchStage.
  destruct sellerId as [s|]; [|eexists; repeat split].
  destruct (bool_decide (s = "")) eqn:Es; [eexists; repeat split|].
  destruct Hacc as [->|Hid]; [discriminate|].
  rewrite (newObjectId_objectIdString s Hid). eexists; repeat split.
Qed.

#[local] Set Warnings "-clear-no-such-hyp".

(** What the [$match] stage selects. *)
Lemma matches_selects (m : MatchStage) (startDate endDate : option Date) (d : Shipping) :
  match_shippedAt m =
    (if bool_decide (is_Some startDate) || bool_decide (is_Some endDate)
     then Some {| gte := startDate; lte := endDate |}
     else None) ->
  matches m d = true <->
    (forall i : ObjectId, match_sellerID m = Some i -> sellerID d = i)
    /\ ((startDate = None /\ endDate = None)
        \/ exists t : Date,
             shippedAt d = Some t
             /\ (forall a : Date, startDate = Some a -> (a <= t)%Z)
             /\ (forall b : Date, endDate = Some b -> (t <= b)%Z)).
Proof.
  intros Hrange. unfold matches. rewrite Hrange. clear Hrange.
  destruct (match_sellerID m) as [i|], startDate as [a|], endDate as [b|],
    (shippedAt d) as [t|];
    cbn; rewrite ?andb_true_iff, ?bool_decide_eq_true, ?Z.leb_le;
    naive_solver.
Qed.

Lemma buildMatchStage_range (sellerId : option string) (startDate endDate : option Date)
    (m : MatchStage) :
  buildMatchStage sellerId startDate endDate = Some m ->
  match_shippedAt m =
    if bool_decide (is_Some startDate) || bool_decide (is_Some endDate)
    then Some {| gte := startDate; lte := endDate |}
    else None.
Proof.
  unfold buildMatchStage.
  destruct (match sellerId with Some s => _ | None => _ end) as [i|]; [|discriminate].
  intros [= <-]. reflexivity.
Qed.

(** The result of the [$group] stage and of the fallback of line 303. *)
Lemma getShippingStats_resolves (collection : list Shipping)
    (sellerId : option string) (startDate endDate : option Date) (m : MatchStage) :
  buildMatchStage sellerId startDate endDate = Some m ->
  getShippingStats collection sellerId startDate endDate =
    Resolves
      match filter (fun d => matches m d = true) collection with
      | [] =>
          {| totalShipments := 0; deliveredCount := 0; inTransitCount := 0;
             failedCount := 0; averageDeliveryDays := Some 0%Q; carrierBreakdown := [] |}
      | docs => finish (foldl accumulate emptyGroup docs)
      end.
Proof.
  intros Hm. unfold getShippingStats, aggregate. rewrite Hm.
  destruct (filter _ collection); reflexivity.
Qed.

(** C8.  For a [sellerId] that is absent, empty or the 24 hexadecimal
    digits of an id, [getShippingStats] builds its filter: the seller with
    that id, when [sellerId] is not empty, and a ship date within the
    bounds given, when one is.  When no document matches, the promise
    resolves with the zero shape; when some do, it resolves with their
    number, the numbers of those with status "Delivered", with a status
    among "Shipped", "In Transit" and "Out for Delivery", and with status
    "Delivery Failed", the carrier of every matched document in order, and
    the mean, over the matched documents that have both dates, of the time
    from [shippedAt] to [actualDeliveryDate] in days of 86400000
    milliseconds ([null] when none has both). *)
Theorem getShippingStats_counts (collection : list Shipping)
    (sellerId : option string) (startDate endDate : option Date) :
  sellerIdAccepted sellerId ->
  exists m : MatchStage,
    buildMatchStage sellerId startDate endDate = Some m
    /\ (forall d : Shipping,
          matches m d = true <->
            (forall s : string, sellerId = Some s -> s <> "" -> sellerID d = JS.toLowerCase s)
            /\ ((startDate = None /\ endDate = None)
                \/ exists t : Date,
                     shippedAt d = Some t
                     /\ (forall a : Date, startDate = Some a -> (a <= t)%Z)
                     /\ (forall b : Date, endDate = Some b -> (t <= b)%Z)))
    /\ let docs := filter (fun d => matches m d = true) collection in
       let durations :=
         omap (fun d => match shippedAt d, actualDeliveryDate d with
                        | Some shipped, Some delivered =>
                            Some (inject_Z (delivered - shipped) / inject_Z 86400000)%Q
                        | _, _ => None
                        end) docs in
       (docs = [] ->
        getShippingStats collection sellerId startDate endDate =
          Resolves
            {| totalShipments := 0; deliveredCount := 0; inTransitCount := 0;
               failedCount := 0; averageDeliveryDays := Some 0%Q;
               carrierBreakdown := [] |})
       /\ (docs <> [] ->
           exists s : Stats,
             getShippingStats collection sellerId startDate endDate = Resolves s
             /\ totalShipments s = length docs
             /\ deliveredCount s =
                  length (filter (fun d => shippingStatus d = Some "Delivered") docs)
             /\ inTransitCount s =
                  length (filter (fun d => shippingStatus d ∈
                                    [Some "Shipped"; Some "In Transit";
                                     Some "Out for Delivery"]) docs)
             /\ failedCount s =
                  length (filter (fun d => shippingStatus d = Some "Delivery Failed") docs)
             /\ carrierBreakdown s = map carrier docs
             /\ (durations = [] -> averageDeliveryDays s = None)
             /\ (durations <> [] ->
                 exists q : Q, averageDeliveryDays s = Some q /\ (q == mean durations)%Q)).
Proof.
  intros Hacc.
  destruct (buildMatchStage_accepted sellerId startDate endDate Hacc)
    as (m & Hm & Hseller & Hrange).
  exists m. split; [exact Hm|split].
  - intros d. rewrite (matches_selects m startDate endDate d Hrange), Hseller.
    apply and_iff_compat_r.
    destruct sellerId as [s|].
    + destruct (bool_decide (s = "")) eqn:Es.
      * apply bool_decide_eq_true in Es. split; [|intros _ i [=]].
        intros _ s' [= <-] Hne. contradiction.
      * apply bool_decide_eq_false in Es. split.
        -- intros H s' [= <-] _. apply H. reflexivity.
        -- intros H i [= <-]. apply (H s eq_refl Es).
    + split; [intros _ s [=]|intros _ i [=]].
  - cbv zeta. rewrite (getShippingStats_resolves collection _ _ _ m Hm).
    destruct (filter _ collection) as [|d docs] eqn:E.
    + split; [reflexivity|]. intros H. contradiction.
    + split; [discriminate|]. intros _. cbv beta iota. eexists. split; [reflexivity|].
      destruct (foldl_accumulate (d :: docs) emptyGroup) as (H1 & H2 & H3 & H4 & H5 & H6 & H7).
      unfold finish. cbn [totalShipments deliveredCount inTransitCount failedCount
                          averageDeliveryDays carrierBreakdown].
      rewrite H1, H2, H3, H4, H5, H6.
      cbn [emptyGroup g_total g_delivered g_inTransit g_failed g_carriers g_count
           Nat.add app].
      repeat match goal with
             | |- context [omap ?f (d :: docs)] =>
                 lazymatch f with
                 | deliveryDays => fail
                 | _ => change (omap f (d :: docs)) with (omap deliveryDays (d :: docs))
                 end
             end.
      repeat split.
      * intros Hnone. rewrite Hnone. reflexivity.
      * intros Hsome.
        destruct (omap deliveryDays (d :: docs)) as [|q l] eqn:El; [contradiction|].
        cbn [length Nat.eqb]. eexists. split; [reflexivity|].
        unfold mean. rewrite H7. cbn [emptyGroup g_sum]. rewrite Qplus_0_l. reflexivity.
Qed.

(** One delivered shipment in two days. *)
Lemma getShippingStats_counts_witness :
  let delivered :=
    set_actualDeliveryDate (Some (1704067200000 + 2 * msPerDay)%Z)
      (set_shippingStatus (Some "Delivered") false mondayShipment) in
  getShippingStats [delivered; mondayShipment] (Some "00000000000000000000000A") None None
  = Resolves
      {| totalShipments := 0; deliveredCount := 0; inTransitCount := 0;
         failedCount := 0; averageDeliveryDays := Some 0%Q; carrierBreakdown := [] |}
  /\ exists s : Stats,
       getShippingStats [delivered; mondayShipment] None None None = Resolves s
       /\ totalShipments s = 2
       /\ deliveredCount s = 1
       /\ carrierBreakdown s = ["Chronopost"; "Chronopost"]
       /\ exists q : Q, averageDeliveryDays s = Some q /\ (q == 2)%Q.
Proof.
  intros delivered.
  assert (Hid : sellerIdAccepted (Some "00000000000000000000000A")).
  { right. split; [reflexivity|]. repeat constructor; decide_closed. }
  destruct (getShippingStats_counts [delivered; mondayShipment]
              (Some "00000000000000000000000A") None None Hid) as (m & Hm & _ & Hzero & _).
  destruct (getShippingStats_counts [delivered; mondayShipment] None None None I)
    as (m' & Hm' & _ & _ & Hsome).
  injection Hm as <-. injection Hm' as <-.
  split; [apply Hzero; reflexivity|].
  destruct (Hsome ltac:(discriminate))
    as (s & Hs & Htotal & Hdelivered & _ & _ & Hcarriers & _ & Hmean).
  destruct (Hmean ltac:(discriminate)) as (q & Hq & Hqmean).
  exists s. split; [exact Hs|]. split; [exact Htotal|]. split; [exact Hdelivered|].
  split; [exact Hcarriers|].
  exists q. split; [exact Hq|]. rewrite Hqmean. reflexivity.
Defined.

(** A [sellerId] that is not the digits of an id, on an empty collection,
    where no filter matches any shipment: the constructor of line 268
    throws, and the promise rejects instead of resolving with the zero
    shape. *)
Lemma getShippingStats_invalid_sellerId_counterexample :
  filter (fun d : Shipping => sellerID d = "abc") [] = []
  /\ getShippingStats [] (Some "abc") None None = Rejects
  /\ getShippingStats [] (Some "abc") None None <>
       Resolves
         {| totalShipments := 0; deliveredCount := 0; inTransitCount := 0;
            failedCount := 0; averageDeliveryDays := Some 0%Q; carrierBreakdown := [] |}.
Proof. split; [reflexivity|split; [reflexivity|discriminate]]. Qed.

(** The mean over the matched documents, evaluated: two shipments, one
    delivered after two days. *)
Example getShippingStats_average :
  getShippingStats
    [ set_actualDeliveryDate (Some (1704067200000 + 2 * msPerDay)%Z)
        (set_shippingStatus (Some "Delivered") false mondayShipment);
      mondayShipment ] None None None
  = Resolves
      {| totalShipments := 2; deliveredCount := 1; inTransitCount := 1;
         failedCount := 0;
         averageDeliveryDays :=
           Some ((0 + inject_Z (2 * msPerDay) / inject_Z msPerDay) / inject_Z 1)%Q;
         carrierBreakdown := ["Chronopost"; "Chronopost"] |}.
Proof. reflexivity. Qed.

(** * Further properties of the model *)

(** ** The event history *)

Lemma trackingEvents_generateTrackingUrl (w : World) :
  trackingEvents (this (generateTrackingUrl w).2) = trackingEvents (this w).
Proof.
  unfold generateTrackingUrl. run_M. unfold assignTrackingUrl.
  destruct (Mongoose.castString _); reflexivity.
Qed.

Lemma trackingEvents_calculateEstimatedDelivery (fuel : nat) (tz : Z) (w : World) :
  trackingEvents (this (calculateEstimatedDelivery fuel tz w).2) = trackingEvents (this w).
Proof.
  unfold calculateEstimatedDelivery. run_M.
  destruct (shippedAt (this w)); [|reflexivity].
  destruct (estimateLoop _ _ _ _ _ _); reflexivity.
Qed.

Lemma trackingEvents_getLatestTrackingEvent (w : World) :
  Permutation (trackingEvents (this (getLatestTrackingEvent w).2)) (trackingEvents (this w)).
Proof.
  unfold getLatestTrackingEvent. run_M. case_if; run_M; [reflexivity|].
  cbn [set_trackingEvents trackingEvents]. apply sort_Permutation.
Qed.

Lemma trackingEvents_save (w : World) :
  trackingEvents (this (save w).2) = trackingEvents (this w).
Proof. apply (save_frame w). Qed.

Lemma trackingEvents_updateStatus (newStatus text : string) (loc : Location) (w : World) :
  trackingEvents (this (updateStatus newStatus text loc w).2) =
    (trackingEvents (this w) ++
       [ {| status := JS.replaceWhitespace (JS.toLowerCase newStatus);
            description := JS.trim text; location := loc;
            timestamp := now w; source := "manual" |} ])%list.
Proof.
  rewrite updateStatus_run, trackingEvents_save, trackingEvents_addTrackingEvent.
  cbn [this]. rewrite trackingEvents_assignShippingStatus. reflexivity.
Qed.

Lemma trackingEvents_markAsDelivered (receiver place sig photo notes : string) (w : World) :
  exists e : TrackingEvent,
    trackingEvents (this (markAsDelivered receiver place sig photo notes w).2) =
      (trackingEvents (this w) ++ [e])%list.
Proof.
  rewrite markAsDelivered_run, trackingEvents_save, trackingEvents_addTrackingEvent.
  cbn [this]. unfold assignDelivery.
  cbn [set_delivery set_actualDeliveryDate trackingEvents].
  rewrite trackingEvents_assignShippingStatus. eexists. reflexivity.
Qed.

Lemma trackingEvents_processReturn (why number : string) (w : World) :
  exists e : TrackingEvent,
    trackingEvents (this (processReturn why number w).2) =
      (trackingEvents (this w) ++ [e])%list.
Proof.
  rewrite processReturn_run, trackingEvents_save, trackingEvents_addTrackingEvent.
  cbn [this]. rewrite trackingEvents_assignShippingStatus. eexists. reflexivity.
Qed.

Lemma perform_keeps_events (c : Call) (w : World) :
  exists rest : list TrackingEvent,
    Permutation (trackingEvents (this (perform c w)))
                (trackingEvents (this w) ++ rest).
Proof.
  destruct c as [s d l|s d l t| |fuel tz| |r l s p n|r t|v| ]; cbn [perform].
  - eexists. rewrite trackingEvents_updateStatus. reflexivity.
  - eexists. rewrite trackingEvents_addTrackingEvent. reflexivity.
  - exists []. rewrite trackingEvents_generateTrackingUrl, app_nil_r. reflexivity.
  - exists []. rewrite trackingEvents_calculateEstimatedDelivery, app_nil_r. reflexivity.
  - exists []. rewrite app_nil_r. apply trackingEvents_getLatestTrackingEvent.
  - destruct (trackingEvents_markAsDelivered r l s p n w) as [e ->].
    eexists. reflexivity.
  - destruct (trackingEvents_processReturn r t w) as [e ->].
    eexists. reflexivity.
  - exists []. cbv [write]. cbn [snd this].
    rewrite trackingEvents_assignShippingStatus, app_nil_r. reflexivity.
  - exists []. rewrite trackingEvents_save, app_nil_r. reflexivity.
Qed.

(** X1.  No sequence of calls drops or alters a stored tracking event:
    the events after the calls are the events before, with the appended
    ones, up to the order (which [getLatestTrackingEvent] changes). *)
Theorem events_never_dropped (calls : list Call) (w : World) :
  (exists rest : list TrackingEvent,
     Permutation (trackingEvents (this (performAll calls w)))
                 (trackingEvents (this w) ++ rest))
  /\ (forall e : TrackingEvent,
        e ∈ trackingEvents (this w) -> e ∈ trackingEvents (this (performAll calls w)))
  /\ length (trackingEvents (this w)) <= length (trackingEvents (this (performAll calls w))).
Proof.
  assert (H : exists rest : list TrackingEvent,
             Permutation (trackingEvents (this (performAll calls w)))
                         (trackingEvents (this w) ++ rest)).
  { revert w. induction calls as [|c calls IH]; intros w.
    - exists []. rewrite app_nil_r. reflexivity.
    - cbn [performAll foldl]. destruct (IH (perform c w)) as [rest Hrest].
      destruct (perform_keeps_events c w) as [rest' Hrest'].
      exists (rest' ++ rest)%list. unfold performAll in Hrest.
      rewrite Hrest, Hrest', app_assoc. reflexivity. }
  split; [exact H|]. destruct H as [rest Hrest]. split.
  - intros e He. rewrite Hrest. apply elem_of_app. left. exact He.
  - rewrite Hrest, length_app. lia.
Qed.

Lemma events_never_dropped_witness :
  let e := {| status := "label_created"; description := "Etiquette";
              location := emptyLocation; timestamp := 1704067200000%Z;
              source := "api" |} in
  e ∈ trackingEvents
        (this (performAll
                 [ CallUpdateStatus "In Transit" "En route" emptyLocation;
                   CallGetLatestTrackingEvent; CallSave ]
                 (sampleWorld (set_trackingEvents [e] pendingShipment)))).
Proof.
  intros e.
  apply (events_never_dropped
           [ CallUpdateStatus "In Transit" "En route" emptyLocation;
             CallGetLatestTrackingEvent; CallSave ]
           (sampleWorld (set_trackingEvents [e] pendingShipment))).
  left.
Defined.

Lemma events_kept (calls : list Call) (w : World) (e : TrackingEvent) :
  e ∈ trackingEvents (this w) -> e ∈ trackingEvents (this (performAll calls w)).
Proof.
  revert w. induction calls as [|c calls IH]; intros w He; [exact He|].
  cbn [performAll foldl]. apply IH.
  destruct (perform_keeps_events c w) as [rest Hrest].
  rewrite Hrest. apply elem_of_app. left. exact He.
Qed.

(** ** Saves that cannot succeed *)

Lemma rejected_when (w : World) (path : string) :
  path ∈ validate (this w) ->
  exists paths : list string,
    (save w).1 = Rejected (Mongoose.ValidationError paths) /\ path ∈ paths.
Proof.
  intros Hin. rewrite save_invalid by (intros E; rewrite E in Hin; inversion Hin).
  eexists. split; [reflexivity|exact Hin].
Qed.

(** X2.  An event whose status is outside the event-status enumeration
    stays in the document, so from then on every save rejects: a plain
    [save], and the saves of [updateStatus], [markAsDelivered] and
    [processReturn], after any sequence of calls. *)
Theorem invalid_event_blocks_every_save
    (w : World) (e : TrackingEvent) (calls : list Call) :
  e ∈ trackingEvents (this w) ->
  status e ∉ trackingEventStatusEnum ->
  let w' := performAll calls w in
  (exists paths, (save w').1 = Rejected (Mongoose.ValidationError paths))
  /\ (forall newStatus text loc,
        exists paths,
          (updateStatus newStatus text loc w').1 = Rejected (Mongoose.ValidationError paths))
  /\ (forall receiver place sig photo notes,
        exists paths,
          (markAsDelivered receiver place sig photo notes w').1
          = Rejected (Mongoose.ValidationError paths))
  /\ (forall why number,
        exists paths,
          (processReturn why number w').1 = Rejected (Mongoose.ValidationError paths)).
Proof.
  intros Hin Hout w'.
  assert (Hstill : e ∈ trackingEvents (this w'))
    by (apply (events_kept calls w), Hin).
  split; [|split; [|split]].
  - destruct (rejected_when w' _ (validate_event_status _ e Hstill Hout)) as (paths & H & _).
    exists paths. exact H.
  - intros newStatus text loc. rewrite updateStatus_run.
    match goal with |- context [save ?w0] => set (mid := w0) end.
    assert (Hmid : e ∈ trackingEvents (this mid)).
    { subst mid. rewrite trackingEvents_addTrackingEvent. cbn [this].
      rewrite trackingEvents_assignShippingStatus. apply elem_of_app. left. exact Hstill. }
    destruct (rejected_when mid _ (validate_event_status _ e Hmid Hout)) as (paths & H & _).
    exists paths. exact H.
  - intros receiver place sig photo notes. rewrite markAsDelivered_run.
    match goal with |- context [save ?w0] => set (mid := w0) end.
    assert (Hmid : e ∈ trackingEvents (this mid)).
    { subst mid. rewrite trackingEvents_addTrackingEvent. cbn [this].
      unfold assignDelivery. cbn [set_delivery set_actualDeliveryDate trackingEvents].
      rewrite trackingEvents_assignShippingStatus. apply elem_of_app. left. exact Hstill. }
    destruct (rejected_when mid _ (validate_event_status _ e Hmid Hout)) as (paths & H & _).
    exists paths. exact H.
  - intros why number. rewrite processReturn_run.
    match goal with |- context [save ?w0] => set (mid := w0) end.
    assert (Hmid : e ∈ trackingEvents (this mid)).
    { subst mid. rewrite trackingEvents_addTrackingEvent. cbn [this].
      rewrite trackingEvents_assignShippingStatus. apply elem_of_app. left. exact Hstill. }
    destruct (rejected_when mid _ (validate_event_status _ e Hmid Hout)) as (paths & H & _).
    exists paths. exact H.
Qed.

(** After a rejected [updateStatus('Shipped', ...)], on the same document
    in memory, [markAsDelivered] is rejected as well. *)
Lemma invalid_event_blocks_every_save_witness :
  let w := (updateStatus "Shipped" "Colis remis au transporteur" emptyLocation
              (sampleWorld pendingShipment)).2 in
  exists paths,
    (markAsDelivered "Nadia" "Loge" "" "" "" w).1
    = Rejected (Mongoose.ValidationError paths).
Proof.
  intros w.
  destruct (invalid_event_blocks_every_save w
              {| status := "shipped"; description := "Colis remis au transporteur";
                 location := emptyLocation;
                 timestamp := now (sampleWorld pendingShipment); source := "manual" |}
              []) as (_ & _ & Hmark & _).
  - left.
  - decide_closed.
  - exact (Hmark "Nadia" "Loge" "" "" "").
Defined.

Lemma validate_event_description (d : Shipping) (e : TrackingEvent) :
  e ∈ trackingEvents d ->
  description e = "" ->
  "trackingEvents.description" ∈ validate d.
Proof.
  intros Hin Hblank. unfold validate.
  rewrite !elem_of_app. do 4 right. left.
  apply list_elem_of_In, in_flat_map. exists e. split; [apply list_elem_of_In, Hin|].
  apply list_elem_of_In. unfold validateTrackingEvent.
  rewrite !elem_of_app. right. left. rewrite Hblank. left.
Qed.

(** X3.  [updateStatus] with a description that is empty or only
    whitespace, as its default [''] is, never persists: the save rejects
    on the description of the appended event, for every status and every
    document. *)
Theorem updateStatus_blank_description_rejected
    (w : World) (newStatus text : string) (loc : Location) :
  JS.trim text = "" ->
  exists paths : list string,
    (updateStatus newStatus text loc w).1 = Rejected (Mongoose.ValidationError paths)
    /\ "trackingEvents.description" ∈ paths.
Proof.
  intros Hblank. rewrite updateStatus_run.
  apply rejected_when.
  apply validate_event_description with
    (e := {| status := JS.replaceWhitespace (JS.toLowerCase newStatus);
             description := JS.trim text; location := loc;
             timestamp := now w; source := "manual" |}).
  - rewrite trackingEvents_addTrackingEvent. apply elem_of_app. right. left.
  - exact Hblank.
Qed.

Lemma updateStatus_blank_description_rejected_witness :
  exists paths : list string,
    (updateStatus "In Transit" "" emptyLocation (sampleWorld pendingShipment)).1
    = Rejected (Mongoose.ValidationError paths)
    /\ "trackingEvents.description" ∈ paths.
Proof.
  apply (updateStatus_blank_description_rejected (sampleWorld pendingShipment)
           "In Transit" "" emptyLocation).
  reflexivity.
Defined.

(** ** [updateStatus] through the status mapping *)

Lemma statusMapping_valid (k v : string) :
  statusMapping !! k = Some v ->
  JS.get statusMapping k = JS.Str v
  /\ JS.truthy (JS.Str v) = true
  /\ Mongoose.enumValidator shippingStatusEnum (Some v) = true
  /\ Mongoose.requiredValidator (Some k)
     && Mongoose.enumValidator trackingEventStatusEnum (Some k) = true.
Proof.
  intros H. split; [unfold JS.get; rewrite H; reflexivity|].
  apply statusMapping_lookup in H.
  repeat (apply elem_of_cons in H as [H|H]; [simplify_eq; repeat split; reflexivity|]).
  inversion H.
Qed.

(** X4.  For a [newStatus] and a description written in ASCII: whatever
    the spelling of [newStatus], when its token is a key of the status
    mapping the status that [updateStatus] leaves is the mapped value, not
    [newStatus]; on a document that was valid and with a description that
    is not blank, the save resolves with it. *)
Theorem updateStatus_canonical_status
    (w : World) (newStatus text mapped : string) (loc : Location) :
  asciiOnly newStatus = true ->
  asciiOnly text = true ->
  statusMapping !! JS.replaceWhitespace (JS.toLowerCase newStatus) = Some mapped ->
  let r := updateStatus newStatus text loc w in
  shippingStatus (this r.2) = Some mapped
  /\ (validate (this w) = [] -> JS.trim text <> "" -> r.1 = Saved (this r.2)).
Proof.
  intros _ _ Hmap. cbv zeta.
  destruct (statusMapping_valid _ _ Hmap) as (Hget & Htruthy & Hstatus & Htoken).
  rewrite updateStatus_run.
  match goal with |- context [save ?w0] => set (mid := w0) end.
  assert (Hmid : shippingStatus (this mid) = Some mapped).
  { subst mid. rewrite addTrackingEvent_run, Hget. cbv zeta. rewrite Htruthy. reflexivity. }
  destruct (save_frame mid) as (Hs & _). rewrite Hs. split; [exact Hmid|].
  intros Hvalid Htext.
  assert (Hok : validate (this mid) = []).
  { apply validate_nil in Hvalid as (Hc & Htn & _ & Htf & Hev & Hnotes & Hreason).
    apply validate_nil. rewrite Hmid. subst mid.
    rewrite addTrackingEvent_run, Hget. cbv zeta. rewrite Htruthy.
    cbn. repeat split; try assumption.
    apply Forall_app. split; [exact Hev|]. constructor; [|constructor].
    unfold validateTrackingEvent. cbn [status description source].
    rewrite !app_nil, !check_nil. split; [exact Htoken|]. split; [|reflexivity].
    cbn. apply negb_true_iff, String.eqb_neq, Htext. }
  rewrite (save_valid mid Hok). reflexivity.
Qed.

Lemma updateStatus_canonical_status_witness :
  let r := updateStatus "OUT  FOR   DELIVERY" "En tournee" emptyLocation (sampleWorld pendingShipment) in
  shippingStatus (this r.2) = Some "Out for Delivery" /\ r.1 = Saved (this r.2).
Proof.
  intros r.
  destruct (updateStatus_canonical_status (sampleWorld pendingShipment)
              "OUT  FOR   DELIVERY" "En tournee" "Out for Delivery" emptyLocation
              eq_refl eq_refl eq_refl) as [Hstatus Hsaved].
  split; [exact Hstatus|]. apply Hsaved; [reflexivity|discriminate].
Defined.

(** ** Carrier events and the automatic dates *)

Lemma validate_markSaved (d : Shipping) : validate (markSaved d) = validate d.
Proof. reflexivity. Qed.

Lemma validate_preSave (w : World) : validate (this (preSave w).2) = validate (this w).
Proof.
  destruct (preSave_frame w) as (Hs & He & Hd & Hr & _).
  unfold validate. rewrite Hs, He, Hd, Hr.
  unfold preSave. run_all; reflexivity.
Qed.






(** ** Repeating a call *)

(** X6.  Saving twice is saving once: the second [save] gives the same
    result, leaves the same document and reads no clock, whether the first
    one resolved or rejected. *)
Theorem save_idempotent (w : World) : save (save w).2 = save w.
Proof.
  destruct (validate (this w)) eqn:E.
  - rewrite (save_valid w E). cbn [snd].
    match goal with |- save ?w0 = _ => set (w1 := w0) end.
    assert (Hv : validate (this w1) = [])
      by (subst w1; cbn [this]; rewrite validate_markSaved, validate_preSave; exact E).
    rewrite (save_valid w1 Hv).
    assert (Hp : preSave w1 = (tt, w1)) by (subst w1; reflexivity).
    rewrite Hp. subst w1. reflexivity.
  - assert (Hinv : validate (this w) <> []) by (rewrite E; discriminate).
    rewrite (save_invalid w Hinv). cbn [snd]. apply (save_invalid w Hinv).
Qed.

Lemma set_trackingUrl_same (d : Shipping) : set_trackingUrl (trackingUrl d) d = d.
Proof. destruct d; reflexivity. Qed.

(** X7.  [generateTrackingUrl] changes nothing but [trackingUrl], reads no
    clock and does not save; calling it again gives the same result and
    the same document. *)
Theorem generateTrackingUrl_idempotent (w : World) :
  let r := generateTrackingUrl w in
  this r.2 = set_trackingUrl r.1 (this w)
  /\ clock r.2 = clock w /\ ticks r.2 = ticks w
  /\ generateTrackingUrl r.2 = r.
Proof.
  cbv zeta. unfold generateTrackingUrl. run_M.
  unfold assignTrackingUrl.
  destruct (Mongoose.castString _) as [v|] eqn:E; cbn [set_trackingUrl trackingUrl carrier trackingNumber].
  - rewrite E. repeat split.
  - rewrite E. repeat split. symmetry. apply set_trackingUrl_same.
Qed.

(** ** Where the delivery estimate falls *)

Section CountedDays.

Variables (tz : Z) (sat : bool).





End CountedDays.



Lemma businessDay_saturday (tz : Z) (t : Date) :
  businessDay tz false t = true -> businessDay tz true t = true.
Proof.
  unfold businessDay. rewrite orb_false_r, orb_true_r, andb_true_r.
  intros H. apply andb_true_iff in H as [H _]. exact H.
Qed.

Lemma countedDays_saturday (tz : Z) (k : nat) :
  forall t : Date, countedDays tz false k t <= countedDays tz true k t.
Proof.
  induction k as [|k IH]; intros t; cbn [countedDays]; [lia|].
  specialize (IH (nextDay t)).
  destruct (businessDay tz false (nextDay t)) eqn:E.
  - rewrite (businessDay_saturday tz _ E). lia.
  - destruct (businessDay tz true (nextDay t)); lia.
Qed.

(** X9.  Saturday delivery never delays the estimate: of two shipments
    with the same ship date and the same time-frame, the one with
    Saturday delivery is estimated no later than the one without. *)
Theorem saturday_delivery_not_later (fuel : nat) (tz : Z) (w w' : World)
    (shipped : Date) (timeframe : DeliveryTimeframe) :
  shippedAt (this w) = Some shipped ->
  shippedAt (this w') = Some shipped ->
  deliveryTimeframe (this w) = Some timeframe ->
  deliveryTimeframe (this w') = Some timeframe ->
  saturdayDelivery (this w) = true ->
  saturdayDelivery (this w') = false ->
  3 * Z.to_nat (JS.numberOr (max timeframe) 7) <= fuel ->
  exists r r' : Date,
    (calculateEstimatedDelivery fuel tz w).1 = Returns (Some r)
    /\ (calculateEstimatedDelivery fuel tz w').1 = Returns (Some r')
    /\ (r <= r')%Z.
Proof.
  intros Hs Hs' Htf Htf' Hsat Hsat' Hfuel.
  destruct (calculateEstimatedDelivery_reaches fuel tz w shipped timeframe Hs Htf Hfuel)
    as (r & Hrun & Hreach).
  destruct (calculateEstimatedDelivery_reaches fuel tz w' shipped timeframe Hs' Htf' Hfuel)
    as (r' & Hrun' & Hreach').
  exists r, r'. rewrite Hrun, Hrun'. split; [reflexivity|]. split; [reflexivity|].
  rewrite Hsat in Hreach. rewrite Hsat' in Hreach'.
  destruct Hreach as (k & -> & Hk & Hmin). destruct Hreach' as (k' & -> & Hk' & _).
  destruct (Nat.le_gt_cases k k') as [H|H].
  - pose proof msPerDay_pos. nia.
  - specialize (Hmin k' H). pose proof (countedDays_saturday tz k' shipped). lia.
Qed.

Lemma saturday_delivery_not_later_witness :
  let saturdayShipment :=
    {| sellerID := sellerID mondayShipment; carrier := carrier mondayShipment;
       trackingNumber := trackingNumber mondayShipment; trackingUrl := None;
       shippingStatus := Some "Shipped"; saturdayDelivery := true;
       shippedAt := Some 1704067200000%Z; estimatedDeliveryDate := None;
       actualDeliveryDate := None;
       deliveryTimeframe := Some {| min := Some 2%Z; max := Some 5%Z |};
       trackingEvents := []; lastTrackingUpdate := None;
       delivery := noDelivery; return_ := noReturn;
       isNew := false; statusModified := false |} in
  exists r r' : Date,
    (calculateEstimatedDelivery 15 0 (sampleWorld saturdayShipment)).1 = Returns (Some r)
    /\ (calculateEstimatedDelivery 15 0 (sampleWorld mondayShipment)).1 = Returns (Some r')
    /\ (r <= r')%Z.
Proof.
  intros saturdayShipment.
  apply (saturday_delivery_not_later 15 0 (sampleWorld saturdayShipment)
           (sampleWorld mondayShipment) 1704067200000%Z
           {| min := Some 2%Z; max := Some 5%Z |});
    first [reflexivity | cbn; lia].
Defined.

(** ** More on [getLatestTrackingEvent] *)

Lemma sort_descending_fixed (l : list TrackingEvent) :
  timestampDescending l -> JS.sort byTimestampDesc l = l.
Proof.
  unfold timestampDescending. induction 1 as [|x l Hl IH Hx]; [reflexivity|].
  unfold JS.sort in *. cbn [foldr]. rewrite IH.
  destruct l as [|y l']; [reflexivity|]. cbn [JS.insert].
  inversion Hx as [|? ? Hxy _]; subst. unfold byTimestampDesc.
  rewrite (proj2 (Z.leb_le _ _)) by lia. reflexivity.
Qed.

(** X10.  A second [getLatestTrackingEvent] returns the same event and
    leaves the document as the first one left it. *)
Theorem getLatestTrackingEvent_idempotent (w : World) :
  getLatestTrackingEvent (getLatestTrackingEvent w).2 = getLatestTrackingEvent w.
Proof.
  unfold getLatestTrackingEvent. run_M.
  destruct (trackingEvents (this w)) as [|x l] eqn:E.
  - cbn [length Nat.eqb]. run_M. rewrite E. reflexivity.
  - cbn [length Nat.eqb]. run_M. cbn [set_trackingEvents trackingEvents].
    pose proof (sort_Permutation (x :: l)) as Hperm.
    rewrite (sort_descending_fixed _ (sort_sorted (x :: l))).
    destruct (JS.sort byTimestampDesc (x :: l)) as [|e s] eqn:Es.
    + apply Permutation_nil in Hperm. discriminate.
    + cbn [length Nat.eqb]. run_M. reflexivity.
Qed.

Lemma head_sort_first_latest (l : list TrackingEvent) :
  forall e : TrackingEvent,
    head (JS.sort byTimestampDesc l) = Some e ->
    exists before after : list TrackingEvent,
      l = (before ++ e :: after)%list
      /\ (forall e', e' ∈ before -> (timestamp e' < timestamp e)%Z)
      /\ (forall e', e' ∈ after -> (timestamp e' <= timestamp e)%Z).
Proof.
  induction l as [|x l IH]; intros e He; [discriminate|].
  unfold JS.sort in *. cbn [foldr] in He.
  destruct (foldr (JS.insert byTimestampDesc) [] l) as [|y s] eqn:Es.
  - assert (l = []) as ->.
    { pose proof (sort_Permutation l) as Hp. unfold JS.sort in Hp. rewrite Es in Hp.
      exact (Permutation_nil Hp). }
    cbn in He. injection He as <-. exists [], [].
    split; [reflexivity|]. split; intros e' He'; inversion He'.
  - destruct (IH y eq_refl) as (before & after & -> & Hb & Ha).
    cbn [JS.insert] in He. unfold byTimestampDesc in He.
    destruct (timestamp y - timestamp x <=? 0)%Z eqn:E.
    + apply Z.leb_le in E. cbn in He. injection He as <-.
      exists [], (before ++ y :: after)%list.
      split; [reflexivity|]. split; [intros e' He'; inversion He'|].
      intros e' He'. apply elem_of_app in He' as [He'|He'].
      * specialize (Hb e' He'). lia.
      * apply elem_of_cons in He' as [->|He']; [lia|]. specialize (Ha e' He'). lia.
    + apply Z.leb_gt in E. cbn in He. injection He as <-.
      exists (x :: before), after.
      split; [reflexivity|]. split; [|exact Ha].
      intros e' He'. apply elem_of_cons in He' as [->|He']; [lia|]. exact (Hb e' He').
Qed.

(** X11.  Among the events that share the latest timestamp,
    [getLatestTrackingEvent] returns the one stored first: every event
    stored before the returned one is strictly older, every event stored
    after it is not newer. *)
Theorem getLatestTrackingEvent_first_of_latest (w : World) (e : TrackingEvent) :
  (getLatestTrackingEvent w).1 = Some e ->
  exists before after : list TrackingEvent,
    trackingEvents (this w) = (before ++ e :: after)%list
    /\ (forall e', e' ∈ before -> (timestamp e' < timestamp e)%Z)
    /\ (forall e', e' ∈ after -> (timestamp e' <= timestamp e)%Z).
Proof.
  unfold getLatestTrackingEvent. run_M.
  destruct (trackingEvents (this w)) as [|x l] eqn:E.
  - cbn [length Nat.eqb]. run_M. discriminate.
  - cbn [length Nat.eqb]. run_M. cbn [set_trackingEvents trackingEvents].
    apply head_sort_first_latest.
Qed.

Lemma getLatestTrackingEvent_first_of_latest_witness :
  let e1 := {| status := "in_transit"; description := "Tri"; location := emptyLocation;
               timestamp := 1704157200000%Z; source := "carrier" |} in
  let e2 := {| status := "in_transit"; description := "Tri (doublon)";
               location := emptyLocation; timestamp := 1704157200000%Z;
               source := "webhook" |} in
  exists before after : list TrackingEvent,
    [e1; e2] = (before ++ e1 :: after)%list
    /\ (forall e', e' ∈ before -> (timestamp e' < timestamp e1)%Z).
Proof.
  intros e1 e2.
  destruct (getLatestTrackingEvent_first_of_latest
              (sampleWorld (set_trackingEvents [e1; e2] pendingShipment)) e1 eq_refl)
    as (before & after & Hsplit & Hb & _).
  exists before, after. split; [exact Hsplit|exact Hb].
Defined.

(** ** More on [getShippingStats] *)

Lemma filter_three_disjoint {A : Type} (P Q R : A -> Prop)
    `{!forall x, Decision (P x)} `{!forall x, Decision (Q x)} `{!forall x, Decision (R x)}
    (l : list A) :
  (forall x, P x -> Q x -> False) ->
  (forall x, P x -> R x -> False) ->
  (forall x, Q x -> R x -> False) ->
  length (filter P l) + length (filter Q l) + length (filter R l) <= length l.
Proof.
  intros HPQ HPR HQR. induction l as [|x l IH]; [reflexivity|].
  rewrite !filter_cons.
  destruct (decide (P x)) as [Hp|Hp], (decide (Q x)) as [Hq|Hq], (decide (R x)) as [Hr|Hr];
    cbn [length]; try lia;
    exfalso; eauto.
Qed.

(** X12.  In every result of [getShippingStats] the delivered, in-transit
    and failed counts are counts of disjoint groups, so their sum does not
    exceed the total, and [carrierBreakdown] has one entry per counted
    shipment. *)
Theorem getShippingStats_counts_consistent (collection : list Shipping)
    (sellerId : option string) (startDate endDate : option Date) (s : Stats) :
  getShippingStats collection sellerId startDate endDate = Resolves s ->
  deliveredCount s + inTransitCount s + failedCount s <= totalShipments s
  /\ length (carrierBreakdown s) = totalShipments s.
Proof.
  unfold getShippingStats, aggregate.
  destruct (buildMatchStage sellerId startDate endDate) as [m|]; [|discriminate].
  destruct (filter _ collection) as [|d docs] eqn:E; intros [= <-]; [cbn; lia|].
  destruct (foldl_accumulate (d :: docs) emptyGroup) as (H1 & H2 & H3 & H4 & H5 & _).
  unfold finish. cbn [totalShipments deliveredCount inTransitCount failedCount carrierBreakdown].
  change (foldl accumulate (accumulate emptyGroup d) docs)
    with (foldl accumulate emptyGroup (d :: docs)).
  rewrite H1, H2, H3, H4, H5.
  cbn [emptyGroup g_total g_delivered g_inTransit g_failed g_carriers Nat.add app].
  split; [|apply length_map].
  apply filter_three_disjoint.
  - intros x Hd Ht. rewrite Hd in Ht.
    revert Ht. apply (proj1 (bool_decide_eq_false _)). reflexivity.
  - intros x Hd Hf. rewrite Hd in Hf. discriminate.
  - intros x Ht Hf. rewrite Hf in Ht.
    revert Ht. apply (proj1 (bool_decide_eq_false _)). reflexivity.
Qed.

Lemma getShippingStats_counts_consistent_witness :
  exists s : Stats,
    getShippingStats [pendingShipment; mondayShipment] None None None = Resolves s
    /\ deliveredCount s + inTransitCount s + failedCount s <= totalShipments s
    /\ length (carrierBreakdown s) = totalShipments s.
Proof.
  eexists. split; [reflexivity|].
  apply (getShippingStats_counts_consistent [pendingShipment; mondayShipment]
           None None None).
  reflexivity.
Defined.

Lemma matches_bounded_shipped (sellerId : option string) (startDate endDate : option Date)
    (m : MatchStage) (d : Shipping) :
  buildMatchStage sellerId startDate endDate = Some m ->
  is_Some startDate \/ is_Some endDate ->
  matches m d = true ->
  is_Some (shippedAt d).
Proof.
  intros Hbuild Hbound Hm.
  apply (matches_selects m startDate endDate d (buildMatchStage_range _ _ _ _ Hbuild))
    in Hm as [_ [[-> ->]|(t & Ht & _)]].
  - destruct Hbound as [[? [=]]|[? [=]]].
  - rewrite Ht. eauto.
Qed.

(** X13.  As soon as a start or an end date is given, the shipments
    without a ship date are ignored: the statistics are those of the
    collection without them.  Without any argument, every document of the
    collection is counted. *)
Theorem getShippingStats_date_filter (collection : list Shipping)
    (sellerId : option string) (startDate endDate : option Date) :
  (is_Some startDate \/ is_Some endDate ->
   getShippingStats collection sellerId startDate endDate =
   getShippingStats (filter (fun d => is_Some (shippedAt d)) collection)
     sellerId startDate endDate)
  /\ exists s : Stats,
       getShippingStats collection None None None = Resolves s
       /\ totalShipments s = length collection.
Proof.
  split.
  - intros Hbound. unfold getShippingStats, aggregate.
    destruct (buildMatchStage sellerId startDate endDate) as [m|] eqn:Hbuild; [|reflexivity].
    rewrite list_filter_filter.
    assert (Heq : filter (fun d => matches m d = true /\ is_Some (shippedAt d)) collection
                  = filter (fun d => matches m d = true) collection).
    { apply list_filter_iff. intros d. split; [intros [H _]; exact H|].
      intros H. split; [exact H|]. exact (matches_bounded_shipped _ _ _ _ _ Hbuild Hbound H). }
    rewrite Heq. reflexivity.
  - unfold getShippingStats, aggregate. cbn [buildMatchStage mbind option_bind].
    assert (Hall : forall m : MatchStage,
               match_sellerID m = None -> match_shippedAt m = None ->
               filter (fun d => matches m d = true) collection = collection).
    { intros m Hs Hr. induction collection as [|d l IH]; [reflexivity|].
      rewrite filter_cons.
      destruct (decide _) as [_|Hn]; [rewrite IH; reflexivity|].
      exfalso. apply Hn. unfold matches. rewrite Hs, Hr. reflexivity. }
    rewrite Hall by reflexivity. destruct collection as [|d docs]; [eexists; split; reflexivity|].
    eexists. split; [reflexivity|].
    destruct (foldl_accumulate (d :: docs) emptyGroup) as (H1 & _).
    unfold finish. cbn [totalShipments]. rewrite H1. reflexivity.
Qed.

Lemma getShippingStats_date_filter_witness :
  getShippingStats [pendingShipment; mondayShipment] None (Some 0%Z) None =
  getShippingStats (filter (fun d => is_Some (shippedAt d)) [pendingShipment; mondayShipment])
    None (Some 0%Z) None.
Proof.
  apply (getShippingStats_date_filter [pendingShipment; mondayShipment] None (Some 0%Z) None).
  left. eauto.
Defined.

(** ** Sorting with any comparator that orders *)

Section SortOrdered.

Context {A : Type} (cmp : A -> A -> Z).

Hypothesis cmp_trans : forall x y z, (cmp x y <= 0)%Z -> (cmp y z <= 0)%Z -> (cmp x z <= 0)%Z.
Hypothesis cmp_total : forall x y, (0 < cmp x y)%Z -> (cmp y x <= 0)%Z.

Lemma insert_Permutation_ordered (x : A) (l : list A) :
  Permutation (JS.insert cmp x l) (x :: l).
Proof.
  induction l as [|y l IH]; cbn [JS.insert]; [reflexivity|].
  destruct (cmp x y <=? 0)%Z; [reflexivity|].
  rewrite IH. apply perm_swap.
Qed.

Lemma sort_Permutation_ordered (l : list A) : Permutation (JS.sort cmp l) l.
Proof.
  induction l as [|x l IH]; [reflexivity|].
  unfold JS.sort in *. cbn [foldr]. rewrite insert_Permutation_ordered, IH. reflexivity.
Qed.



End SortOrdered.


(** ** Late shipments *)



Lemma lateFilter_true (today : Date) (d : Shipping) :
  lateFilter today d = true <->
    isInTransit d = true
    /\ exists estimate : Date,
         estimatedDeliveryDate d = Some estimate /\ (estimate < today)%Z.
Proof.
  unfold lateFilter, isInTransit. rewrite andb_true_iff.
  destruct (estimatedDeliveryDate d) as [e|].
  - rewrite Z.ltb_lt. split.
    + intros [H1 H2]. split; [exact H1|]. exists e. split; [reflexivity|exact H2].
    + intros [H1 (e' & [= <-] & H2)]. split; assumption.
  - split; [intros [_ [=]]|intros [_ (e' & [=] & _)]].
Qed.


Lemma isLate_run (w : World) :
  (isLate w).1 =
    match estimatedDeliveryDate (this w) with
    | None => false
    | Some estimate =>
        if isDelivered (this w) then false else (estimate <? now w)%Z
    end.
Proof.
  unfold isLate, now. run_M.
  destruct (estimatedDeliveryDate (this w)); [|reflexivity].
  destruct (isDelivered (this w)); reflexivity.
Qed.

Lemma isInTransit_not_delivered (d : Shipping) :
  isInTransit d = true -> isDelivered d = false.
Proof.
  unfold isInTransit, isDelivered. intros H. apply bool_decide_eq_true in H.
  apply bool_decide_eq_false. intros Hd. rewrite Hd in H.
  revert H. apply (proj1 (bool_decide_eq_false _)). reflexivity.
Qed.

(** X15.  Every shipment that [getLateShipments] returns is late for
    [isLate] at any later time; but [isLate] also holds for an overdue
    shipment in any other status than "Delivered" (pending, failed,
    returned, lost, ...), and [getLateShipments] returns none of those that
    are not in transit. *)
Theorem isLate_and_getLateShipments (collection : list Shipping) (today : Date) (w : World) :
  (this w ∈ getLateShipments collection today ->
   (today <= now w)%Z ->
   (isLate w).1 = true)
  /\ (forall estimate : Date,
        estimatedDeliveryDate (this w) = Some estimate ->
        (estimate < now w)%Z ->
        shippingStatus (this w) <> Some "Delivered" ->
        (isLate w).1 = true)
  /\ (isInTransit (this w) = false -> this w ∉ getLateShipments collection today).
Proof.
  split; [|split].
  - intros Hin Htoday. unfold getLateShipments in Hin.
    rewrite (sort_Permutation_ordered byEstimateAsc) in Hin.
    apply list_elem_of_filter in Hin as [Hlate _].
    apply lateFilter_true in Hlate as (Htransit & e & He & Hlt).
    rewrite isLate_run, He, (isInTransit_not_delivered _ Htransit).
    apply Z.ltb_lt. lia.
  - intros e He Hlt Hnot. rewrite isLate_run, He.
    unfold isDelivered. rewrite bool_decide_eq_false_2 by exact Hnot.
    apply Z.ltb_lt. exact Hlt.
  - intros Hnot Hin. unfold getLateShipments in Hin.
    rewrite (sort_Permutation_ordered byEstimateAsc) in Hin.
    apply list_elem_of_filter in Hin as [Hlate _].
    apply lateFilter_true in Hlate as (Htransit & _). congruence.
Qed.

(** A pending shipment, overdue since November 2023: late for
    [isLate], absent from [getLateShipments]. *)
Lemma isLate_and_getLateShipments_witness :
  let overdue := set_estimatedDeliveryDate (Some 1700000000000%Z) pendingShipment in
  (isLate (sampleWorld overdue)).1 = true
  /\ overdue ∉ getLateShipments [overdue] (now (sampleWorld overdue)).
Proof.
  intros overdue.
  destruct (isLate_and_getLateShipments [overdue] (now (sampleWorld overdue))
              (sampleWorld overdue)) as (_ & Hlate & Hnot).
  split.
  - apply (Hlate 1700000000000%Z); [reflexivity|reflexivity|discriminate].
  - apply Hnot. reflexivity.
Defined.


(** ** The virtuals *)

Lemma ceilDiv_bounds (a b : Z) :
  (0 < b)%Z -> ((ceilDiv a b - 1) * b < a <= ceilDiv a b * b)%Z.
Proof.
  intros Hb. unfold ceilDiv.
  pose proof (Z.div_mod (- a) b ltac:(lia)) as Hdm.
  pose proof (Z.mod_pos_bound (- a) b Hb) as Hr.
  nia.
Qed.

(** X16.  [actualDeliveryDays] is [null] unless both the ship date and
    the delivery date are set; otherwise it is the duration in days rounded
    up: the least number of whole days that covers the time between the
    two dates, so any delivery within the first day after shipping counts
    one day, and a delivery at the ship instant counts none. *)
Theorem actualDeliveryDays_rounds_up (d : Shipping) :
  (actualDeliveryDays d = None <-> shippedAt d = None \/ actualDeliveryDate d = None)
  /\ (forall shipped delivered : Date,
        shippedAt d = Some shipped ->
        actualDeliveryDate d = Some delivered ->
        exists n : Z,
          actualDeliveryDays d = Some n
          /\ ((n - 1) * msPerDay < delivered - shipped <= n * msPerDay)%Z
          /\ ((0 < delivered - shipped <= msPerDay)%Z -> n = 1%Z)
          /\ (delivered = shipped -> n = 0%Z)).
Proof.
  unfold actualDeliveryDays. split.
  - destruct (shippedAt d), (actualDeliveryDate d); split;
      first [ discriminate | intros [H|H]; discriminate | intros _; auto | reflexivity ].
  - intros shipped delivered -> ->.
    exists (ceilDiv (delivered - shipped) msPerDay).
    pose proof (ceilDiv_bounds (delivered - shipped) msPerDay msPerDay_pos) as Hb.
    pose proof msPerDay_pos.
    split; [reflexivity|]. split; [exact Hb|]. split; intros; nia.
Qed.

Lemma actualDeliveryDays_rounds_up_witness :
  exists n : Z,
    actualDeliveryDays
      (set_actualDeliveryDate (Some (1704067200000 + 1000)%Z) mondayShipment) = Some n
    /\ n = 1%Z.
Proof.
  destruct (actualDeliveryDays_rounds_up
              (set_actualDeliveryDate (Some (1704067200000 + 1000)%Z) mondayShipment))
    as (_ & Hround).
  destruct (Hround 1704067200000%Z (1704067200000 + 1000)%Z eq_refl eq_refl)
    as (n & Hn & _ & Hone & _).
  exists n. split; [exact Hn|]. apply Hone. unfold msPerDay. lia.
Defined.

Lemma shippingStatus_markAsDelivered (receiver place sig photo notes : string) (w : World) :
  shippingStatus (this (markAsDelivered receiver place sig photo notes w).2)
  = Some "Delivered".
Proof.
  rewrite markAsDelivered_run, addTrackingEvent_run, get_delivered.
  match goal with |- context [save ?w0] => destruct (save_frame w0) as (Hs & _) end.
  rewrite Hs. reflexivity.
Qed.

(** X17.  After [markAsDelivered], whether its save resolved or not, the
    document reads as delivered: [isDelivered] holds, [isInTransit] does
    not, and [isLate] answers [false] without reading the clock, whatever
    the estimate. *)
Theorem markAsDelivered_ends_lateness
    (receiver place sig photo notes : string) (w : World) :
  let w' := (markAsDelivered receiver place sig photo notes w).2 in
  isDelivered (this w') = true
  /\ isInTransit (this w') = false
  /\ isLate w' = (false, w').
Proof.
  intros w'.
  pose proof (shippingStatus_markAsDelivered receiver place sig photo notes w) as Hs.
  fold w' in Hs.
  assert (Hd : isDelivered (this w') = true)
    by (unfold isDelivered; rewrite Hs; reflexivity).
  split; [exact Hd|]. split; [unfold isInTransit; rewrite Hs; reflexivity|].
  unfold isLate. run_M. rewrite Hd.
  destruct (estimatedDeliveryDate (this w')); reflexivity.
Qed.

(** ** No terminal status *)

(** X18.  "Delivered" is not final: on a delivered, valid document,
    [processReturn] with a reason of the enumeration is saved and leaves
    the status "Returned", so [isDelivered] no longer holds, while the
    recorded [actualDeliveryDate] stays. *)
Theorem processReturn_after_delivery (w : World) (why number : string) (t : Date) :
  validate (this w) = [] ->
  why ∈ returnReasonEnum ->
  actualDeliveryDate (this w) = Some t ->
  let r := processReturn why number w in
  r.1 = Saved (this r.2)
  /\ shippingStatus (this r.2) = Some "Returned"
  /\ isDelivered (this r.2) = false
  /\ actualDeliveryDate (this r.2) = Some t.
Proof.
  intros Hvalid Hwhy Hdate. cbv zeta.
  rewrite processReturn_run, addTrackingEvent_run, get_returned.
  cbn [snd this clock ticks JS.truthy String.eqb negb default].
  match goal with |- context [save ?w0] => set (mid := w0) end.
  destruct (save_frame mid) as (Hstatus & _).
  assert (Hmid : validate (this mid) = []).
  { apply validate_nil in Hvalid as (Hc & Htn & _ & Htf & Hev & Hnotes & _).
    apply validate_nil. subst mid. cbn. repeat split; try assumption.
    - apply Forall_app. split; [exact Hev|]. constructor; [|constructor].
      unfold validateTrackingEvent. cbn [status description source].
      rewrite !app_nil, !check_nil. repeat split; try reflexivity.
      exact (required_trim_cons "C" ("olis retourné - Raison: " ++ why) eq_refl).
    - apply bool_decide_eq_true. exact Hwhy. }
  split; [rewrite (save_valid mid Hmid); reflexivity|].
  split; [rewrite Hstatus; reflexivity|].
  split; [unfold isDelivered; rewrite Hstatus; reflexivity|].
  apply save_actualDeliveryDate_kept. exact Hdate.
Qed.

Lemma processReturn_after_delivery_witness :
  let delivered :=
    this (markAsDelivered "Nadia" "Loge" "" "" "" (sampleWorld pendingShipment)).2 in
  isDelivered delivered = true
  /\ isDelivered
       (this (processReturn "customer_request" "RT123" (sampleWorld delivered)).2) = false.
Proof.
  intros delivered. split; [reflexivity|].
  apply (processReturn_after_delivery (sampleWorld delivered) "customer_request" "RT123"
           (now (sampleWorld pendingShipment))).
  - reflexivity.
  - decide_closed.
  - reflexivity.
Defined.

(** ** The error handler of the server *)

Ltac handler_cases error :=
  unfold errorHandler, respond;
  destruct (bool_decide (err_name error = Some "ValidationError")) eqn:Hvalidation;
  [|destruct (bool_decide (err_name error = Some "CastError")) eqn:Hcast;
    [|destruct (bool_decide (err_code error = Some 11000%Z)) eqn:Hcode;
      [|destruct (bool_decide (err_name error = Some "JsonWebTokenError")) eqn:Hjwt;
        [|destruct (bool_decide (err_name error = Some "TokenExpiredError")) eqn:Hexpired]]]].

Lemma recognised_false (error : ErrorObject) :
  bool_decide (err_name error = Some "ValidationError") = false ->
  bool_decide (err_name error = Some "CastError") = false ->
  bool_decide (err_code error = Some 11000%Z) = false ->
  bool_decide (err_name error = Some "JsonWebTokenError") = false ->
  bool_decide (err_name error = Some "TokenExpiredError") = false ->
  ~ recognised error.
Proof.
  intros H1 H2 H3 H4 H5 [Hname|Hcode].
  - apply bool_decide_eq_false in H1, H2, H4, H5.
    repeat (apply elem_of_cons in Hname as [Hname|Hname]; [contradiction|]).
    inversion Hname.
  - apply bool_decide_eq_false in H3. contradiction.
Qed.

(** X19.  Whatever the error and the environment, a response of the
    handler has [success: false]; it carries a [stack] key only when
    [NODE_ENV] is "development" and the error is not one the handler
    recognises; it carries an [errors] list only for a "ValidationError";
    its status is 400 or 401 for a recognised error, whatever
    [error.status], and otherwise [error.status] itself, 500 when that is
    absent or 0. *)
Theorem errorHandler_response (nodeEnv : option string) (error : ErrorObject)
    (r : Response) :
  errorHandler nodeEnv error = Responds r ->
  res_success (res_body r) = false
  /\ (res_stack (res_body r) <> None ->
      nodeEnv = Some "development" /\ ~ recognised error)
  /\ (res_errors (res_body r) <> None -> err_name error = Some "ValidationError")
  /\ (recognised error -> res_status r = 400%Z \/ res_status r = 401%Z)
  /\ (~ recognised error -> res_status r = JS.numberOr (err_status error) 500).
Proof.
  handler_cases error.
  - destruct (err_errors error) as [entries|]; [|discriminate].
    destruct (mapM messageOf (map snd entries)); [|discriminate]. intros [= <-]. cbn.
    apply bool_decide_eq_true in Hvalidation.
    repeat split; try congruence; auto.
    intros Hnot. exfalso. apply Hnot. left. rewrite Hvalidation. left.
  - intros [= <-]. cbn. apply bool_decide_eq_true in Hcast.
    repeat split; try congruence; auto.
    intros Hnot. exfalso. apply Hnot. left. rewrite Hcast. right. left.
  - destruct (err_keyValue error); [|discriminate]. intros [= <-]. cbn.
    apply bool_decide_eq_true in Hcode.
    repeat split; try congruence; auto.
    intros Hnot. exfalso. apply Hnot. right. exact Hcode.
  - intros [= <-]. cbn. apply bool_decide_eq_true in Hjwt.
    repeat split; try congruence; auto.
    intros Hnot. exfalso. apply Hnot. left. rewrite Hjwt. do 2 right. left.
  - intros [= <-]. cbn. apply bool_decide_eq_true in Hexpired.
    repeat split; try congruence; auto.
    intros Hnot. exfalso. apply Hnot. left. rewrite Hexpired. do 3 right. left.
  - intros [= <-]. cbn.
    pose proof (recognised_false error Hvalidation Hcast Hcode Hjwt Hexpired) as Hnot.
    split; [reflexivity|]. split; [|split; [congruence|split; [contradiction|reflexivity]]].
    destruct (bool_decide (nodeEnv = Some "development")) eqn:Henv; [|congruence].
    intros _. apply bool_decide_eq_true in Henv. split; [exact Henv|exact Hnot].
Qed.

(** A duplicate-key error that carries [status: 409] and a stack, in
    development. *)
Lemma errorHandler_response_witness :
  let duplicate :=
    {| err_name := Some "MongoServerError"; err_errors := None;
       err_code := Some 11000%Z; err_keyValue := Some ["trackingNumber"];
       err_status := Some 409%Z; err_message := Some "E11000 duplicate key error";
       err_stack := Some "MongoServerError: E11000" |} in
  exists r : Response,
    errorHandler (Some "development") duplicate = Responds r
    /\ (res_status r = 400%Z \/ res_status r = 401%Z)
    /\ res_success (res_body r) = false.
Proof.
  intros duplicate. eexists. split; [reflexivity|].
  destruct (errorHandler_response (Some "development") duplicate _ eq_refl)
    as (Hsuccess & _ & _ & Hstatus & _).
  split; [|exact Hsuccess]. apply Hstatus. right. reflexivity.
Defined.

(** X20.  The handler throws a [TypeError] of its own, before any answer,
    on an error named "ValidationError" that has no [errors] or one of
    whose [errors] is [null] or [undefined], and on an error with code
    11000 and no [keyValue] that is named neither "ValidationError" nor
    "CastError". *)
Theorem errorHandler_throws (nodeEnv : option string) (error : ErrorObject) :
  (err_name error = Some "ValidationError"
   /\ (err_errors error = None
       \/ exists (entries : list (string * ErrorEntry)) (key : string),
            err_errors error = Some entries /\ (key, Nullish) ∈ entries))
  \/ (err_name error <> Some "ValidationError"
      /\ err_name error <> Some "CastError"
      /\ err_code error = Some 11000%Z
      /\ err_keyValue error = None) ->
  errorHandler nodeEnv error = ThrowsTypeError.
Proof.
  unfold errorHandler.
  intros [[Hname Herrors]|(Hv & Hc & Hcode & Hkeys)].
  - rewrite (bool_decide_eq_true_2 _ Hname).
    destruct Herrors as [->|(entries & key & -> & Hin)]; [reflexivity|].
    assert (Hnone : mapM messageOf (map snd entries) = None); [|rewrite Hnone; reflexivity].
    apply mapM_None. apply Exists_exists. exists Nullish.
    split; [|reflexivity].
    apply (list_elem_of_fmap_2 snd _ _ Hin).
  - rewrite (bool_decide_eq_false_2 _ Hv), (bool_decide_eq_false_2 _ Hc),
      (bool_decide_eq_true_2 _ Hcode), Hkeys. reflexivity.
Qed.

Lemma errorHandler_throws_witness :
  errorHandler (Some "production")
    {| err_name := Some "ValidationError"; err_errors := None; err_code := None;
       err_keyValue := None; err_status := Some 422%Z;
       err_message := Some "Bad input"; err_stack := None |} = ThrowsTypeError
  /\ errorHandler (Some "production")
       {| err_name := Some "ValidationError";
          err_errors := Some [("carrier", WithMessage (Some "Path `carrier` is required."));
                              ("delivery", Nullish)];
          err_code := None; err_keyValue := None; err_status := None;
          err_message := Some "Validation failed"; err_stack := None |} = ThrowsTypeError.
Proof.
  split.
  - apply (errorHandler_throws (Some "production")).
    left. split; [reflexivity|left; reflexivity].
  - apply (errorHandler_throws (Some "production")).
    left. split; [reflexivity|]. right.
    exists [("carrier", WithMessage (Some "Path `carrier` is required.")); ("delivery", Nullish)],
      "delivery".
    split; [reflexivity|]. apply list_elem_of_further, list_elem_of_here.
Defined.

(** X21.  A duplicate-key error whose [keyValue] has no key is answered
    with the message "undefined already exists"; with keys, the message
    names the first one only. *)
Theorem errorHandler_duplicate_key (nodeEnv : option string) (error : ErrorObject)
    (keys : list string) :
  err_name error <> Some "ValidationError" ->
  err_name error <> Some "CastError" ->
  err_code error = Some 11000%Z ->
  err_keyValue error = Some keys ->
  exists r : Response,
    errorHandler nodeEnv error = Responds r
    /\ res_status r = 400%Z
    /\ (keys = [] -> res_message (res_body r) = "undefined already exists")
    /\ (forall k rest, keys = k :: rest ->
          res_message (res_body r) = k ++ " already exists").
Proof.
  intros Hv Hc Hcode Hkeys. unfold errorHandler, respond.
  rewrite (bool_decide_eq_false_2 _ Hv), (bool_decide_eq_false_2 _ Hc),
    (bool_decide_eq_true_2 _ Hcode), Hkeys.
  eexists. split; [reflexivity|]. cbn. split; [reflexivity|].
  split; [intros ->; reflexivity|intros k rest ->; reflexivity].
Qed.

Lemma errorHandler_duplicate_key_witness :
  exists r : Response,
    errorHandler None
      {| err_name := Some "MongoServerError"; err_errors := None;
         err_code := Some 11000%Z; err_keyValue := Some [];
         err_status := None; err_message := None; err_stack := None |} = Responds r
    /\ res_message (res_body r) = "undefined already exists".
Proof.
  destruct (errorHandler_duplicate_key None
              {| err_name := Some "MongoServerError"; err_errors := None;
                 err_code := Some 11000%Z; err_keyValue := Some [];
                 err_status := None; err_message := None; err_stack := None |} [])
    as (r & Hr & _ & Hempty & _); try reflexivity; try discriminate.
  exists r. split; [exact Hr|]. apply Hempty. reflexivity.
Defined.

(** ** [connectDB] *)

(** X23.  [connectDB] calls [mongoose.connect] at most once, and exactly
    when [MONGODB_URI] is a string that is not empty; it always ends with
    one line on the console, its only one, and a connection that fails is
    reported on that line and nowhere else. *)
Theorem connectDB_effects (MONGODB_URI : option string) (connect : string -> option string) :
  let effects := connectDB MONGODB_URI connect in
  (forall uri : string,
     MongooseConnect uri ∈ effects <-> MONGODB_URI = Some uri /\ uri <> "")
  /\ (exists (calls : list Effect) (line : Effect),
        effects = (calls ++ [line])%list
        /\ isConsole line = true
        /\ (calls = [] \/ exists uri, calls = [MongooseConnect uri]))
  /\ (forall uri message : string,
        MONGODB_URI = Some uri -> uri <> "" -> connect uri = Some message ->
        effects = [MongooseConnect uri;
                   ConsoleError "❌ MongoDB connection failed:" message]).
Proof.
  cbv zeta. unfold connectDB. destruct MONGODB_URI as [u|].
  - destruct (String.eqb u "") eqn:E.
    + apply String.eqb_eq in E. subst u. split; [|split].
      * intros uri. split.
        -- intros H. apply elem_of_cons in H as [[=]|H]; inversion H.
        -- intros [[= <-] Hne]. contradiction.
      * exists [], (ConsoleWarn "⚠️ MONGODB_URI missing, skipping DB connection").
        split; [reflexivity|]. split; [reflexivity|left; reflexivity].
      * intros uri message [= <-] Hne. contradiction.
    + apply String.eqb_neq in E. destruct (connect u) as [message|] eqn:Ec.
      * split; [|split].
        -- intros uri. split.
           ++ intros H. apply elem_of_cons in H as [[= ->]|H]; [split; [reflexivity|exact E]|].
              apply elem_of_cons in H as [[=]|H]; inversion H.
           ++ intros [[= <-] _]. left.
        -- exists [MongooseConnect u], (ConsoleError "❌ MongoDB connection failed:" message).
           split; [reflexivity|]. split; [reflexivity|right; eauto].
        -- intros uri message' [= <-] _ Hm. rewrite Ec in Hm. injection Hm as <-. reflexivity.
      * split; [|split].
        -- intros uri. split.
           ++ intros H. apply elem_of_cons in H as [[= ->]|H]; [split; [reflexivity|exact E]|].
              apply elem_of_cons in H as [[=]|H]; inversion H.
           ++ intros [[= <-] _]. left.
        -- exists [MongooseConnect u], (ConsoleLog "✅ MongoDB connected").
           split; [reflexivity|]. split; [reflexivity|right; eauto].
        -- intros uri message [= <-] _ Hm. rewrite Ec in Hm. discriminate.
  - split; [|split].
    + intros uri. split.
      * intros H. apply elem_of_cons in H as [[=]|H]; inversion H.
      * intros [[=] _].
    + exists [], (ConsoleWarn "⚠️ MONGODB_URI missing, skipping DB connection").
      split; [reflexivity|]. split; [reflexivity|left; reflexivity].
    + intros uri message [=].
Qed.

Lemma connectDB_effects_witness :
  connectDB (Some "mongodb://localhost:27017/almas") (fun _ => Some "ECONNREFUSED")
  = [ MongooseConnect "mongodb://localhost:27017/almas";
      ConsoleError "❌ MongoDB connection failed:" "ECONNREFUSED" ]
  /\ ~ MongooseConnect "" ∈ connectDB (Some "") (fun _ => None).
Proof.
  destruct (connectDB_effects (Some "mongodb://localhost:27017/almas")
              (fun _ => Some "ECONNREFUSED")) as (_ & _ & Hfail).
  destruct (connectDB_effects (Some "") (fun _ => None)) as (Hcall & _).
  split.
  - apply Hfail; [reflexivity|discriminate|reflexivity].
  - intros H. apply Hcall in H as [_ Hne]. contradiction.
Defined.
